(** * mpld3: the D3 scene objects of [mpld3/_objects.py]

    A shallow embedding of the classes [D3Base], [D3Figure], [D3Axes],
    [D3Grid], [D3Line2D] and [D3Text], which turn a matplotlib figure into
    the text of a d3.js page (a style sheet, the initial drawing code and the
    zoom handlers), followed by the properties proved about them.

    Python values are modelled as follows: [str] as [string], [float] as the
    primitive binary64 [float], [None]-able attributes as [option], lists as
    [list], exceptions as the [Err] branch of [result], and the process-wide
    [warnings] channel as a log threaded through the constructors. *)

From Stdlib Require Import String Ascii List Bool Arith PeanoNat Lia.
From Stdlib Require Import Decimal DecimalString DecimalNat.
From Stdlib Require Import PrimFloat.
Import ListNotations.

Open Scope list_scope.
Open Scope string_scope.

Set Implicit Arguments.

(** ** Python exceptions and the two effect layers *)

(** The exceptions this module can raise: a failed attribute lookup
    ([D3Base.figid], [getattr]), an index out of range ([gridlines[0]],
    [bbox[k]]), and the two errors of [str.format]. *)
Inductive exn : Type :=
| AttributeError
| IndexError
| KeyError
| ValueError.

Inductive result (A : Type) : Type :=
| Ok (a : A)
| Err (e : exn).

Arguments Ok {A} a.
Arguments Err {A} e.

Definition rbind {A B : Type} (r : result A) (k : A -> result B) : result B :=
  match r with
  | Ok a => k a
  | Err e => Err e
  end.

Declare Scope py_scope.
Delimit Scope py_scope with py.
Notation "x <- r ;; k" := (rbind r (fun x => k))
  (at level 61, r at next level, right associativity) : py_scope.
Notation "' p <- r ;; k" := (rbind r (fun x => let p := x in k))
  (at level 61, p pattern, r at next level, right associativity) : py_scope.

Definition is_ok {A : Type} (r : result A) : bool :=
  match r with
  | Ok _ => true
  | Err _ => false
  end.

(** [[f(x) for x in xs]] where [f] may raise: the first exception wins. *)
Fixpoint mapM {A B : Type} (f : A -> result B) (xs : list A) : result (list B) :=
  match xs with
  | [] => Ok []
  | x :: xs' =>
      (y <- f x ;; ys <- mapM f xs' ;; Ok (y :: ys))%py
  end.

(** Code that also calls [warnings.warn]: the log of messages issued so far
    is threaded through; an exception aborts the computation. *)
Definition Py (A : Type) : Type := list string -> result (A * list string).

Definition pret {A : Type} (a : A) : Py A := fun w => Ok (a, w).

Definition pbind {A B : Type} (m : Py A) (k : A -> Py B) : Py B :=
  fun w =>
    match m w with
    | Ok (a, w') => k a w'
    | Err e => Err e
    end.

Definition lift {A : Type} (r : result A) : Py A :=
  fun w =>
    match r with
    | Ok a => Ok (a, w)
    | Err e => Err e
    end.

(** [warnings.warn(msg)]: the message goes to the warnings channel, nothing
    is returned to the caller. The log records every call, as under a
    filter that lets all warnings through; a filter set to turn warnings
    into exceptions is not modelled. *)
Definition warn (msg : string) : Py unit := fun w => Ok (tt, (w ++ [msg])%list).

Declare Scope pyw_scope.
Delimit Scope pyw_scope with pyw.
Notation "x <- m ;; k" := (pbind m (fun x => k))
  (at level 61, m at next level, right associativity) : pyw_scope.
Notation "m ;;; k" := (pbind m (fun _ => k))
  (at level 61, right associativity) : pyw_scope.

(** [[f(i, x) for i, x in enumerate(xs)]], counting from [i]. *)
Fixpoint mapM_enumerate {A B : Type} (f : nat -> A -> Py B) (i : nat)
    (xs : list A) : Py (list B) :=
  match xs with
  | [] => pret []
  | x :: xs' =>
      (y <- f i x ;; ys <- mapM_enumerate f (S i) xs' ;; pret (y :: ys))%pyw
  end.

(** [for x in xs: body(x)]. *)
Fixpoint for_each {A : Type} (body : A -> Py unit) (xs : list A) : Py unit :=
  match xs with
  | [] => pret tt
  | x :: xs' => (body x ;;; for_each body xs')%pyw
  end.

(** ** Strings *)

(** The double-quote character, kept out of the literals below. *)
Definition dq : string := String (ascii_of_nat 34) EmptyString.

(** A line break, as in the triple-quoted templates. *)
Definition nl : string := String (ascii_of_nat 10) EmptyString.

(** [str(n)] for a non-negative [int]. *)
Definition str_nat (n : nat) : string := NilEmpty.string_of_uint (Nat.to_uint n).

(** [sep.join(xs)]. *)
Definition join (sep : string) (xs : list string) : string := String.concat sep xs.

(** [s.replace(c, '')] for a one-character [c]. *)
Fixpoint remove_char (c : ascii) (s : string) : string :=
  match s with
  | EmptyString => EmptyString
  | String a s' =>
      if Ascii.eqb a c then remove_char c s' else String a (remove_char c s')
  end.

(** ** [str.format]

    The subset of the format mini-language the templates use: literal text,
    the escapes [{{] and [}}], and replacement fields [{name}] and
    [{name[k]}] with a decimal index [k]. Positional fields [{0}], [{1}] are
    looked up under the keys ["0"], ["1"]. Arguments arrive already rendered
    with [str]; a tuple argument is the list of its rendered components. *)
Inductive fval : Type :=
| FStr (s : string)
| FSeq (l : list string).

Fixpoint lookup (k : string) (args : list (string * fval)) : option fval :=
  match args with
  | [] => None
  | (k', v) :: args' => if String.eqb k k' then Some v else lookup k args'
  end.

(** Splits at the first occurrence of [c]; [None] when there is none. *)
Fixpoint split_at (c : ascii) (s : string) : string * option string :=
  match s with
  | EmptyString => (EmptyString, None)
  | String a s' =>
      if Ascii.eqb a c then (EmptyString, Some s')
      else let (x, r) := split_at c s' in (String a x, r)
  end.

(** [str] of a tuple whose components are already rendered. *)
Definition str_tuple (l : list string) : string :=
  match l with
  | [x] => "(" ++ x ++ ",)"
  | _ => "(" ++ String.concat ", " l ++ ")"
  end.

(** The value of one replacement field: the argument itself, or its
    component [k]. An index that is not a decimal number is outside the
    subset and is reported as [ValueError]. *)
Definition field_value (args : list (string * fval)) (field : string)
  : result string :=
  match split_at "[" field with
  | (name, None) =>
      match lookup name args with
      | Some (FStr s) => Ok s
      | Some (FSeq l) => Ok (str_tuple l)
      | None => Err KeyError
      end
  | (name, Some rest) =>
      match split_at "]" rest with
      | (String c digits, Some EmptyString) =>
          match lookup name args, NilEmpty.uint_of_string (String c digits) with
          | Some (FSeq l), Some d =>
              match nth_error l (Nat.of_uint d) with
              | Some s => Ok s
              | None => Err IndexError
              end
          | Some (FStr s), Some d =>
              match String.get (Nat.of_uint d) s with
              | Some x => Ok (String x EmptyString)
              | None => Err IndexError
              end
          | Some _, None => Err ValueError
          | None, _ => Err KeyError
          end
      | _ => Err ValueError
      end
  end.

(** [fld] is [Some acc] while a replacement field is being read, [acc]
    holding the characters seen since its opening brace. *)
Fixpoint format_aux (args : list (string * fval)) (t : string)
    (fld : option string) : result string :=
  match t, fld with
  | EmptyString, None => Ok EmptyString
  | EmptyString, Some _ => Err ValueError
  | String c t', Some acc =>
      if Ascii.eqb c "}" then
        (v <- field_value args acc ;;
         r <- format_aux args t' None ;;
         Ok (v ++ r))%py
      else format_aux args t' (Some (acc ++ String c EmptyString))
  | String c t', None =>
      if Ascii.eqb c "{" then
        match t' with
        | String "{" t'' =>
            (r <- format_aux args t'' None ;; Ok (String "{" r))%py
        | _ => format_aux args t' (Some EmptyString)
        end
      else if Ascii.eqb c "}" then
        match t' with
        | String "}" t'' =>
            (r <- format_aux args t'' None ;; Ok (String "}" r))%py
        | _ => Err ValueError
        end
      else (r <- format_aux args t' None ;; Ok (String c r))%py
  end.

Definition format (template : string) (args : list (string * fval))
  : result string :=
  format_aux args template None.

(** [xs[k]]. *)
Definition getitem {A : Type} (xs : list A) (k : nat) : result A :=
  match nth_error xs k with
  | Some x => Ok x
  | None => Err IndexError
  end.

(** ** The matplotlib objects read by this module

    Only the attributes and getters that [_objects.py] touches. Every
    matplotlib object that the code compares with [is] carries its object
    identity [oid]. *)
Module Mpl.

(** A matplotlib colour: a named or hexadecimal specification, or a tuple
    of components. *)
Inductive color : Type :=
| ColorSpec (s : string)
| ColorRGB (r g b : float)
| ColorRGBA (r g b a : float).

Module Line2D.
Record t : Type := mk {
  get_linestyle : option string;
  get_marker : option string;
  get_alpha : option float;
  get_color : color;
  get_linewidth : float;
  get_markersize : float;
  get_markerfacecolor : color;
  get_markeredgecolor : color;
  get_markeredgewidth : float;
  get_xydata : list (float * float)
}.
End Line2D.

Module Text.
Record t : Type := mk {
  oid : nat;
  get_text : string;
  get_color : color;
  get_size : float;
  get_rotation : float;
  get_transform : nat
}.
End Text.

Module Axis.
Record t : Type := mk {
  _gridOnMajor : bool;
  get_gridlines : list Line2D.t;
  get_ticklabels : list Text.t;
  label : Text.t
}.
End Axis.

(** Content kinds that are only tested for presence. *)
Inductive Artist : Type := artist (oid : nat).

Module Axes.
Record t : Type := mk {
  oid : nat;
  lines : list Line2D.t;
  texts : list Text.t;
  xaxis : Axis.t;
  yaxis : Axis.t;
  title : Text.t;
  images : list Artist;
  collections : list Artist;
  containers : list Artist;
  artists : list Artist;
  patches : list Artist;
  tables : list Artist;
  legend_ : option Artist;
  get_xlim : float * float;
  get_ylim : float * float;
  (** [get_position().bounds]: x0, y0, width, height. *)
  bounds : float * float * float * float;
  transData : nat
}.

(** [getattr(ax, attr)] for the attribute names the constructor of
    [D3Axes] loops over. *)
Definition getattr (ax : t) (attr : string) : result (list Artist) :=
  if String.eqb attr "images" then Ok (images ax)
  else if String.eqb attr "collections" then Ok (collections ax)
  else if String.eqb attr "containers" then Ok (containers ax)
  else if String.eqb attr "artists" then Ok (artists ax)
  else if String.eqb attr "patches" then Ok (patches ax)
  else if String.eqb attr "tables" then Ok (tables ax)
  else Err AttributeError.
End Axes.

Module Figure.
Record t : Type := mk {
  axes : list Axes.t;
  get_figwidth : float;
  get_figheight : float;
  dpi : float
}.
End Figure.

End Mpl.

(** ** What the module imports

    [str] of a float is a Python builtin, and [color_to_hex],
    [get_dasharray], [get_d3_shape_for_marker] and [get_text_coordinates]
    come from [mpld3/_utils.py]; they are taken as parameters. *)
Class Externals : Type := {
  repr_float : float -> string;
  color_to_hex : Mpl.color -> string;
  get_dasharray : Mpl.Line2D.t -> string;
  get_d3_shape_for_marker : option string -> string;
  get_text_coordinates : Mpl.Text.t -> float * float
}.

(** [str(x)] for a float that may be [None]. *)
Definition str_opt_float {E : Externals} (x : option float) : string :=
  match x with
  | Some f => repr_float f
  | None => "None"
  end.

(** [str] of the list of lists produced by [get_xydata().tolist()]. *)
Definition str_xydata {E : Externals} (data : list (float * float)) : string :=
  "[" ++ join ", " (map (fun p => "[" ++ repr_float (fst p) ++ ", "
                                   ++ repr_float (snd p) ++ "]") data) ++ "]".

(** ** class D3Base *)
Module D3Base.

(** What [_initialize] and the constructors store for the id lookups: the
    parent link and the optional attributes [_figid] and [_axid]. The
    links of the built tree only point upwards, so [parent is not self]
    always holds. *)
#[local] Unset Elimination Schemes.
Inductive t : Type :=
| mk (parent : option t) (_figid : option string) (_axid : option string).
#[local] Set Elimination Schemes.

Definition parent (self : t) : option t := let (p, _, _) := self in p.
Definition _figid (self : t) : option string := let (_, f, _) := self in f.
Definition _axid (self : t) : option string := let (_, _, a) := self in a.

Definition _initialize (parent : option t) : t := mk parent None None.

Fixpoint figid (self : t) : result string :=
  match self with
  | mk p f _ =>
      match f with
      | Some x => Ok x
      | None =>
          match p with
          | Some q => figid q
          | None => Err AttributeError
          end
      end
  end.

Fixpoint axid (self : t) : result string :=
  match self with
  | mk p _ a =>
      match a with
      | Some x => Ok x
      | None =>
          match p with
          | Some q => axid q
          | None => Err AttributeError
          end
      end
  end.

(** The defaults inherited by subclasses that do not override them. *)
Definition style : result string := Ok EmptyString.
Definition zoom : result string := Ok EmptyString.

End D3Base.

(** ** class D3Grid *)
Module D3Grid.

(** The template constants of the class, as they are written, each
    followed by the text that [format] makes of it, as a function of the
    fields it uses (the lemmas [format_...] below relate the two). *)

Definition STYLE : string :=
  "
    div#figure{figid}
    .grid .tick {{
      stroke: {color};
      stroke-dasharray: {dasharray};
      stroke-opacity: {alpha};
    }}
    
    div#figure{figid}
    .grid path {{
      stroke-width: 0;
    }}
    ".

Definition STYLE_text (figid color dasharray alpha : string) : string :=
  "
    div#figure" ++ figid ++ "
    .grid .tick {
      stroke: " ++ color ++ ";
      stroke-dasharray: " ++ dasharray ++ ";
      stroke-opacity: " ++ alpha ++ ";
    }
    
    div#figure" ++ figid ++ "
    .grid path {
      stroke-width: 0;
    }
    ".

Definition XGRID_TEMPLATE : string :=
  "
    // draw x grid lines: we use a second x-axis with long ticks
    axes_{axid}.append(" ++ dq ++ "g" ++ dq ++ ")
         .attr(" ++ dq ++ "class" ++ dq ++ ", " ++ dq ++ "axes{axid} x grid" ++ dq ++ ")
         .attr(" ++ dq ++ "transform" ++ dq ++ ", " ++ dq ++ "translate(0," ++ dq ++ " + (height_{axid}) + " ++ dq ++ ")" ++ dq ++ ")
         .call(create_xAxis_{axid}()
                       .tickSize(-(height_{axid}), 0, 0)
                       .tickFormat(" ++ dq ++ dq ++ "));
    ".

Definition XGRID_TEMPLATE_text (axid : string) : string :=
  "
    // draw x grid lines: we use a second x-axis with long ticks
    axes_" ++ axid ++ ".append(" ++ dq ++ "g" ++ dq ++ ")
         .attr(" ++ dq ++ "class" ++ dq ++ ", " ++ dq ++ "axes" ++ axid ++ " x grid" ++ dq ++ ")
         .attr(" ++ dq ++ "transform" ++ dq ++ ", " ++ dq ++ "translate(0," ++ dq ++ " + (height_" ++ axid ++ ") + " ++ dq ++ ")" ++ dq ++ ")
         .call(create_xAxis_" ++ axid ++ "()
                       .tickSize(-(height_" ++ axid ++ "), 0, 0)
                       .tickFormat(" ++ dq ++ dq ++ "));
    ".

Definition YGRID_TEMPLATE : string :=
  "
    // draw y grid lines: we use a second y-axis with long ticks
    axes_{axid}.append(" ++ dq ++ "g" ++ dq ++ ")
         .attr(" ++ dq ++ "class" ++ dq ++ ", " ++ dq ++ "axes{axid} y grid" ++ dq ++ ")
         .call(create_yAxis_{axid}()
                       .tickSize(-(width_{axid}), 0, 0)
                       .tickFormat(" ++ dq ++ dq ++ "));
    ".

Definition YGRID_TEMPLATE_text (axid : string) : string :=
  "
    // draw y grid lines: we use a second y-axis with long ticks
    axes_" ++ axid ++ ".append(" ++ dq ++ "g" ++ dq ++ ")
         .attr(" ++ dq ++ "class" ++ dq ++ ", " ++ dq ++ "axes" ++ axid ++ " y grid" ++ dq ++ ")
         .call(create_yAxis_" ++ axid ++ "()
                       .tickSize(-(width_" ++ axid ++ "), 0, 0)
                       .tickFormat(" ++ dq ++ dq ++ "));
    ".

Definition XZOOM : string :=
  "
        axes_{axid}.select(" ++ dq ++ ".x.grid" ++ dq ++ ")
            .call(create_xAxis_{axid}()
            .tickSize(-(height_{axid}), 0, 0)
            .tickFormat(" ++ dq ++ dq ++ "));
    ".

Definition XZOOM_text (axid : string) : string :=
  "
        axes_" ++ axid ++ ".select(" ++ dq ++ ".x.grid" ++ dq ++ ")
            .call(create_xAxis_" ++ axid ++ "()
            .tickSize(-(height_" ++ axid ++ "), 0, 0)
            .tickFormat(" ++ dq ++ dq ++ "));
    ".

Definition YZOOM : string :=
  "
        axes_{axid}.select(" ++ dq ++ ".y.grid" ++ dq ++ ")
            .call(create_yAxis_{axid}()
            .tickSize(-(width_{axid}), 0, 0)
            .tickFormat(" ++ dq ++ dq ++ "));
    ".

Definition YZOOM_text (axid : string) : string :=
  "
        axes_" ++ axid ++ ".select(" ++ dq ++ ".y.grid" ++ dq ++ ")
            .call(create_yAxis_" ++ axid ++ "()
            .tickSize(-(width_" ++ axid ++ "), 0, 0)
            .tickFormat(" ++ dq ++ dq ++ "));
    ".

Record t : Type := mk {
  base : D3Base.t;
  ax : Mpl.Axes.t
}.

Definition __init__ (parent : D3Base.t) (ax : Mpl.Axes.t) : t :=
  mk (D3Base._initialize (Some parent)) ax.

Definition figid (self : t) : result string := D3Base.figid (base self).
Definition axid (self : t) : result string := D3Base.axid (base self).

Definition str_bounds {E : Externals} (b : float * float * float * float)
  : fval :=
  let '(x0, y0, w, h) := b in
  FSeq [repr_float x0; repr_float y0; repr_float w; repr_float h].

Definition zoom {E : Externals} (self : t) : result string :=
  (let ret := EmptyString in
   let bbox := str_bounds (Mpl.Axes.bounds (ax self)) in
   ret <- (if Mpl.Axis._gridOnMajor (Mpl.Axes.xaxis (ax self)) then
             a <- axid self ;;
             s <- format XZOOM [("axid", FStr a); ("bbox", bbox)] ;;
             Ok (ret ++ s)
           else Ok ret) ;;
   ret <- (if Mpl.Axis._gridOnMajor (Mpl.Axes.yaxis (ax self)) then
             a <- axid self ;;
             s <- format YZOOM [("axid", FStr a); ("bbox", bbox)] ;;
             Ok (ret ++ s)
           else Ok ret) ;;
   Ok ret)%py.

Definition html {E : Externals} (self : t) : result string :=
  (let ret := EmptyString in
   let bbox := str_bounds (Mpl.Axes.bounds (ax self)) in
   ret <- (if Mpl.Axis._gridOnMajor (Mpl.Axes.xaxis (ax self)) then
             a <- axid self ;;
             s <- format XGRID_TEMPLATE [("axid", FStr a); ("bbox", bbox)] ;;
             Ok (ret ++ s)
           else Ok ret) ;;
   ret <- (if Mpl.Axis._gridOnMajor (Mpl.Axes.yaxis (ax self)) then
             a <- axid self ;;
             s <- format YGRID_TEMPLATE [("axid", FStr a); ("bbox", bbox)] ;;
             Ok (ret ++ s)
           else Ok ret) ;;
   Ok ret)%py.

Definition style {E : Externals} (self : t) : result string :=
  (let gridlines :=
     (Mpl.Axis.get_gridlines (Mpl.Axes.xaxis (ax self)) ++
      Mpl.Axis.get_gridlines (Mpl.Axes.yaxis (ax self)))%list in
   g0 <- getitem gridlines 0 ;;
   let color := color_to_hex (Mpl.Line2D.get_color g0) in
   g0 <- getitem gridlines 0 ;;
   let alpha := Mpl.Line2D.get_alpha g0 in
   g0 <- getitem gridlines 0 ;;
   let dasharray := get_dasharray g0 in
   f <- figid self ;;
   format STYLE [("color", FStr color);
                 ("alpha", FStr (str_opt_float alpha));
                 ("figid", FStr f);
                 ("dasharray", FStr dasharray)])%py.

End D3Grid.

(** ** class D3Line2D *)
Module D3Line2D.

(** The template constants of the class, as they are written, each
    followed by the text that [format] makes of it, as a function of the
    fields it uses (the lemmas [format_...] below relate the two). *)

Definition DATA_TEMPLATE : string :=
  "
    var data_{lineid} = {data}
    ".

Definition DATA_TEMPLATE_text (lineid data : string) : string :=
  "
    var data_" ++ lineid ++ " = " ++ data ++ "
    ".

Definition STYLE : string :=
  "
    div#figure{figid}
    path.line{lineid} {{
        stroke: {linecolor};
        stroke-width: {linewidth};
        stroke-dasharray: {dasharray};
        fill: none;
        stroke-opacity: {alpha};
    }}

    div#figure{figid}
    path.points{lineid} {{
        stroke-width: {markeredgewidth};
        stroke: {markeredgecolor};
        fill: {markercolor};
        fill-opacity: {alpha};
        stroke-opacity: {alpha};
    }}
    ".

Definition STYLE_text (figid lineid linecolor linewidth dasharray alpha markeredgewidth markeredgecolor markercolor : string) : string :=
  "
    div#figure" ++ figid ++ "
    path.line" ++ lineid ++ " {
        stroke: " ++ linecolor ++ ";
        stroke-width: " ++ linewidth ++ ";
        stroke-dasharray: " ++ dasharray ++ ";
        fill: none;
        stroke-opacity: " ++ alpha ++ ";
    }

    div#figure" ++ figid ++ "
    path.points" ++ lineid ++ " {
        stroke-width: " ++ markeredgewidth ++ ";
        stroke: " ++ markeredgecolor ++ ";
        fill: " ++ markercolor ++ ";
        fill-opacity: " ++ alpha ++ ";
        stroke-opacity: " ++ alpha ++ ";
    }
    ".

Definition LINE_ZOOM : string :=
  "
        axes_{axid}.select(" ++ dq ++ ".line{lineid}" ++ dq ++ ")
                       .attr(" ++ dq ++ "d" ++ dq ++ ", line_{lineid}(data_{lineid}));
    ".

Definition LINE_ZOOM_text (axid lineid : string) : string :=
  "
        axes_" ++ axid ++ ".select(" ++ dq ++ ".line" ++ lineid ++ dq ++ ")
                       .attr(" ++ dq ++ "d" ++ dq ++ ", line_" ++ lineid ++ "(data_" ++ lineid ++ "));
    ".

Definition POINTS_ZOOM : string :=
  "
        axes_{axid}.selectAll(" ++ dq ++ ".points{lineid}" ++ dq ++ ")
              .attr(" ++ dq ++ "transform" ++ dq ++ ", function(d) {{ return " ++ dq ++ "translate(" ++ dq ++ " + x_{axid}(d[0]) + " ++ dq ++ "," ++ dq ++ " + y_{axid}(d[1]) + " ++ dq ++ ")" ++ dq ++ "; }});
    ".

Definition POINTS_ZOOM_text (axid lineid : string) : string :=
  "
        axes_" ++ axid ++ ".selectAll(" ++ dq ++ ".points" ++ lineid ++ dq ++ ")
              .attr(" ++ dq ++ "transform" ++ dq ++ ", function(d) { return " ++ dq ++ "translate(" ++ dq ++ " + x_" ++ axid ++ "(d[0]) + " ++ dq ++ "," ++ dq ++ " + y_" ++ axid ++ "(d[1]) + " ++ dq ++ ")" ++ dq ++ "; });
    ".

Definition LINE_TEMPLATE : string :=
  "
    var line_{lineid} = d3.svg.line()
         .x(function(d) {{return x_{axid}(d[0]);}})
         .y(function(d) {{return y_{axid}(d[1]);}})
         .interpolate(" ++ dq ++ "linear" ++ dq ++ ");

    axes_{axid}.append(" ++ dq ++ "svg:path" ++ dq ++ ")
                   .attr(" ++ dq ++ "d" ++ dq ++ ", line_{lineid}(data_{lineid}))
                   .attr('class', 'line{lineid}');
    ".

Definition LINE_TEMPLATE_text (lineid axid : string) : string :=
  "
    var line_" ++ lineid ++ " = d3.svg.line()
         .x(function(d) {return x_" ++ axid ++ "(d[0]);})
         .y(function(d) {return y_" ++ axid ++ "(d[1]);})
         .interpolate(" ++ dq ++ "linear" ++ dq ++ ");

    axes_" ++ axid ++ ".append(" ++ dq ++ "svg:path" ++ dq ++ ")
                   .attr(" ++ dq ++ "d" ++ dq ++ ", line_" ++ lineid ++ "(data_" ++ lineid ++ "))
                   .attr('class', 'line" ++ lineid ++ "');
    ".

Definition POINTS_TEMPLATE : string :=
  "
    var g_{lineid} = axes_{axid}.append(" ++ dq ++ "svg:g" ++ dq ++ ");

    g_{lineid}.selectAll(" ++ dq ++ "scatter-dots-{lineid}" ++ dq ++ ")
          .data(data_{lineid})
          .enter().append(" ++ dq ++ "svg:path" ++ dq ++ ")
              .attr('class', 'points{lineid}')
              .attr(" ++ dq ++ "d" ++ dq ++ ", d3.svg.symbol().type(" ++ dq ++ "{markershape}" ++ dq ++ ").size({markersize}))
              .attr(" ++ dq ++ "transform" ++ dq ++ ", function(d) {{ return " ++ dq ++ "translate(" ++ dq ++ " + x_{axid}(d[0]) + " ++ dq ++ "," ++ dq ++ " + y_{axid}(d[1]) + " ++ dq ++ ")" ++ dq ++ "; }});

    ".

Definition POINTS_TEMPLATE_text (lineid axid markershape markersize : string) : string :=
  "
    var g_" ++ lineid ++ " = axes_" ++ axid ++ ".append(" ++ dq ++ "svg:g" ++ dq ++ ");

    g_" ++ lineid ++ ".selectAll(" ++ dq ++ "scatter-dots-" ++ lineid ++ dq ++ ")
          .data(data_" ++ lineid ++ ")
          .enter().append(" ++ dq ++ "svg:path" ++ dq ++ ")
              .attr('class', 'points" ++ lineid ++ "')
              .attr(" ++ dq ++ "d" ++ dq ++ ", d3.svg.symbol().type(" ++ dq ++ markershape ++ dq ++ ").size(" ++ markersize ++ "))
              .attr(" ++ dq ++ "transform" ++ dq ++ ", function(d) { return " ++ dq ++ "translate(" ++ dq ++ " + x_" ++ axid ++ "(d[0]) + " ++ dq ++ "," ++ dq ++ " + y_" ++ axid ++ "(d[1]) + " ++ dq ++ ")" ++ dq ++ "; });

    ".

Record t : Type := mk {
  base : D3Base.t;
  line : Mpl.Line2D.t;
  lineid : string
}.

(** [i] is the position given by the caller, or [None] for the default
    [''] of the signature. *)
Definition __init__ (parent : D3Base.t) (line : Mpl.Line2D.t)
    (i : option nat) : result t :=
  (let self := D3Base._initialize (Some parent) in
   a <- D3Base.axid self ;;
   lineid <- format "{0}{1}"
               [("0", FStr a);
                ("1", FStr match i with Some n => str_nat n | None => EmptyString end)] ;;
   Ok (mk self line lineid))%py.

Definition figid (self : t) : result string := D3Base.figid (base self).
Definition axid (self : t) : result string := D3Base.axid (base self).

(** [x not in ['', ' ', 'None', 'none', None]]. *)
Definition not_in_absent (x : option string) : bool :=
  match x with
  | None => false
  | Some s =>
      negb (String.eqb s EmptyString || String.eqb s " "
            || String.eqb s "None" || String.eqb s "none")
  end.

Definition has_line (self : t) : bool :=
  not_in_absent (Mpl.Line2D.get_linestyle (line self)).

Definition has_points (self : t) : bool :=
  not_in_absent (Mpl.Line2D.get_marker (line self)).

Definition zoom (self : t) : result string :=
  (let ret := EmptyString in
   ret <- (if has_points self then
             a <- axid self ;;
             s <- format POINTS_ZOOM [("lineid", FStr (lineid self)); ("axid", FStr a)] ;;
             Ok (ret ++ s)
           else Ok ret) ;;
   ret <- (if has_line self then
             a <- axid self ;;
             s <- format LINE_ZOOM [("lineid", FStr (lineid self)); ("axid", FStr a)] ;;
             Ok (ret ++ s)
           else Ok ret) ;;
   Ok ret)%py.

Definition style {E : Externals} (self : t) : result string :=
  (let alpha := Mpl.Line2D.get_alpha (line self) in
   let alpha := match alpha with
                | None => "1"
                | Some a => repr_float a
                end in
   let lc := color_to_hex (Mpl.Line2D.get_color (line self)) in
   let lw := Mpl.Line2D.get_linewidth (line self) in
   let ms := (10 * Mpl.Line2D.get_markersize (line self))%float in
   let mc := color_to_hex (Mpl.Line2D.get_markerfacecolor (line self)) in
   let mec := color_to_hex (Mpl.Line2D.get_markeredgecolor (line self)) in
   let mew := Mpl.Line2D.get_markeredgewidth (line self) in
   let dasharray := get_dasharray (line self) in
   f <- figid self ;;
   format STYLE [("figid", FStr f);
                 ("lineid", FStr (lineid self));
                 ("linecolor", FStr lc);
                 ("linewidth", FStr (repr_float lw));
                 ("markersize", FStr (repr_float ms));
                 ("markeredgewidth", FStr (repr_float mew));
                 ("markeredgecolor", FStr mec);
                 ("markercolor", FStr mc);
                 ("dasharray", FStr dasharray);
                 ("alpha", FStr alpha)])%py.

Definition html {E : Externals} (self : t) : result string :=
  (let data := str_xydata (Mpl.Line2D.get_xydata (line self)) in
   result <- format DATA_TEMPLATE [("lineid", FStr (lineid self)); ("data", FStr data)] ;;
   result <- (if has_points self then
                let marker := Mpl.Line2D.get_marker (line self) in
                let msh := get_d3_shape_for_marker marker in
                let ms := (10 * Mpl.Line2D.get_markersize (line self))%float in
                a <- axid self ;;
                s <- format POINTS_TEMPLATE [("lineid", FStr (lineid self));
                                             ("axid", FStr a);
                                             ("markersize", FStr (repr_float ms));
                                             ("markershape", FStr msh);
                                             ("data", FStr data)] ;;
                Ok (result ++ s)
              else Ok result) ;;
   result <- (if has_line self then
                a <- axid self ;;
                s <- format LINE_TEMPLATE [("lineid", FStr (lineid self));
                                           ("axid", FStr a);
                                           ("data", FStr data)] ;;
                Ok (result ++ s)
              else Ok result) ;;
   Ok result)%py.

End D3Line2D.

(** ** class D3Text *)
Module D3Text.

(** The template constants of the class, as they are written, each
    followed by the text that [format] makes of it, as a function of the
    fields it uses (the lemmas [format_...] below relate the two). *)

Definition TEXT_TEMPLATE : string :=
  "
    canvas.append(" ++ dq ++ "text" ++ dq ++ ")
        .text(" ++ dq ++ "{text}" ++ dq ++ ")
        .attr(" ++ dq ++ "class" ++ dq ++ ", " ++ dq ++ "axes-text" ++ dq ++ ")
        .attr(" ++ dq ++ "x" ++ dq ++ ", {x})
        .attr(" ++ dq ++ "y" ++ dq ++ ", figheight - {y})
        .attr(" ++ dq ++ "font-size" ++ dq ++ ", " ++ dq ++ "{fontsize}px" ++ dq ++ ")
        .attr(" ++ dq ++ "fill" ++ dq ++ ", " ++ dq ++ "{color}" ++ dq ++ ")
        .attr(" ++ dq ++ "transform" ++ dq ++ ", " ++ dq ++ "rotate({rotation},{x}," ++ dq ++ " + (figheight - {y}) + " ++ dq ++ ")" ++ dq ++ ")
        .attr(" ++ dq ++ "style" ++ dq ++ ", " ++ dq ++ "text-anchor: {anchor};" ++ dq ++ ")
    ".

Definition TEXT_TEMPLATE_text (text x y fontsize color rotation anchor : string) : string :=
  "
    canvas.append(" ++ dq ++ "text" ++ dq ++ ")
        .text(" ++ dq ++ text ++ dq ++ ")
        .attr(" ++ dq ++ "class" ++ dq ++ ", " ++ dq ++ "axes-text" ++ dq ++ ")
        .attr(" ++ dq ++ "x" ++ dq ++ ", " ++ x ++ ")
        .attr(" ++ dq ++ "y" ++ dq ++ ", figheight - " ++ y ++ ")
        .attr(" ++ dq ++ "font-size" ++ dq ++ ", " ++ dq ++ fontsize ++ "px" ++ dq ++ ")
        .attr(" ++ dq ++ "fill" ++ dq ++ ", " ++ dq ++ color ++ dq ++ ")
        .attr(" ++ dq ++ "transform" ++ dq ++ ", " ++ dq ++ "rotate(" ++ rotation ++ "," ++ x ++ "," ++ dq ++ " + (figheight - " ++ y ++ ") + " ++ dq ++ ")" ++ dq ++ ")
        .attr(" ++ dq ++ "style" ++ dq ++ ", " ++ dq ++ "text-anchor: " ++ anchor ++ ";" ++ dq ++ ")
    ".

Record t : Type := mk {
  base : D3Base.t;
  ax : Mpl.Axes.t;
  text : Mpl.Text.t
}.

Definition __init__ (parent : D3Base.t) (ax : Mpl.Axes.t) (text : Mpl.Text.t) : t :=
  mk (D3Base._initialize (Some parent)) ax text.

(** [a is b] on matplotlib text objects. *)
Definition text_is (a b : Mpl.Text.t) : bool := Nat.eqb (Mpl.Text.oid a) (Mpl.Text.oid b).

Definition html {E : Externals} (self : t) : result string :=
  if String.eqb (Mpl.Text.get_text (text self)) EmptyString then Ok EmptyString
  else
    (* the test of [get_transform() is transData] guards a bare [pass] *)
    let '(x, y) := get_text_coordinates (text self) in
    let color := color_to_hex (Mpl.Text.get_color (text self)) in
    let fontsize := Mpl.Text.get_size (text self) in
    let x := if text_is (text self) (Mpl.Axis.label (Mpl.Axes.yaxis (ax self)))
             then (x + fontsize)%float else x in
    format TEXT_TEMPLATE [("text", FStr (Mpl.Text.get_text (text self)));
                          ("x", FStr (repr_float x));
                          ("y", FStr (repr_float y));
                          ("fontsize", FStr (repr_float fontsize));
                          ("color", FStr color);
                          ("rotation", FStr (repr_float (- Mpl.Text.get_rotation (text self))%float));
                          ("anchor", FStr "middle")].

Definition style (self : t) : result string := D3Base.style.
Definition zoom (self : t) : result string := D3Base.zoom.

End D3Text.

(** ** class D3Axes *)
Module D3Axes.

(** The template constants of the class, as they are written, each
    followed by the text that [format] makes of it, as a function of the
    fields it uses (the lemmas [format_...] below relate the two). *)

Definition STYLE : string :=
  "
    div#figure{figid}
    .axes{axid}.axis line, .axes{axid}.axis path {{
        shape-rendering: crispEdges;
        stroke: black;
        fill: none;
    }}

    div#figure{figid}
    .axes{axid}.axis text {{
        font-family: sans-serif;
        font-size: {fontsize}px;
        fill: black;
        stroke: none;
    }}
    ".

Definition STYLE_text (figid axid fontsize : string) : string :=
  "
    div#figure" ++ figid ++ "
    .axes" ++ axid ++ ".axis line, .axes" ++ axid ++ ".axis path {
        shape-rendering: crispEdges;
        stroke: black;
        fill: none;
    }

    div#figure" ++ figid ++ "
    .axes" ++ axid ++ ".axis text {
        font-family: sans-serif;
        font-size: " ++ fontsize ++ "px;
        fill: black;
        stroke: none;
    }
    ".

Definition AXES_TEMPLATE : string :=
  "
    // store the width and height of the axes
    var width_{axid} = {bbox[2]} * figwidth;
    var height_{axid} = {bbox[3]} * figheight

    // create the x and y axis
    var x_{axid} = d3.scale.linear()
                       .domain([{xlim[0]}, {xlim[1]}])
                       .range([0, width_{axid}]);

    var y_{axid} = d3.scale.linear()
                       .domain([{ylim[0]}, {ylim[1]}])
                       .range([height_{axid}, 0]);

    // zoom object for the axes
    var zoom{axid} = d3.behavior.zoom()
                    .x(x_{axid})
                    .y(y_{axid})
                    .on(" ++ dq ++ "zoom" ++ dq ++ ", zoomed{axid});

    // create the axes itself
    var baseaxes_{axid} = canvas.append('g')
            .attr('transform', 'translate(' + ({bbox[0]} * figwidth) + ',' +
                              ((1 - {bbox[1]} - {bbox[3]}) * figheight) + ')')
            .attr('width', width_{axid})
            .attr('height', height_{axid})
            .attr('class', 'main')
            .call(zoom{axid});

    // create the axes background
    baseaxes_{axid}.append(" ++ dq ++ "svg:rect" ++ dq ++ ")
                      .attr(" ++ dq ++ "width" ++ dq ++ ", width_{axid})
                      .attr(" ++ dq ++ "height" ++ dq ++ ", height_{axid})
                      .attr(" ++ dq ++ "class" ++ dq ++ ", " ++ dq ++ "bg{axid}" ++ dq ++ ")
                      .attr(" ++ dq ++ "fill" ++ dq ++ ", " ++ dq ++ "{axesbg}" ++ dq ++ ");

    // axis factory functions: used for grid lines & axes
    var create_xAxis_{axid} = function(){{
       return d3.svg.axis()
            .scale(x_{axid})
            .orient('bottom');
    }}

    var create_yAxis_{axid} = function(){{
       return d3.svg.axis()
            .scale(y_{axid})
            .orient('left');
    }}

    // draw the x axis
    var xAxis_{axid} = create_xAxis_{axid}();

    baseaxes_{axid}.append('g')
            .attr('transform', 'translate(0,' + (height_{axid}) + ')')
            .attr('class', 'axes{axid} x axis')
            .call(xAxis_{axid});

    // draw the y axis
    var yAxis_{axid} = create_yAxis_{axid}();

    baseaxes_{axid}.append('g')
            .attr('transform', 'translate(0,0)')
            .attr('class', 'axes{axid} y axis')
            .call(yAxis_{axid});

    // create the clip boundary
    var clip_{axid} = baseaxes_{axid}.append(" ++ dq ++ "svg:clipPath" ++ dq ++ ")
                             .attr(" ++ dq ++ "id" ++ dq ++ ", " ++ dq ++ "clip{axid}" ++ dq ++ ")
                             .append(" ++ dq ++ "svg:rect" ++ dq ++ ")
                             .attr(" ++ dq ++ "x" ++ dq ++ ", 0)
                             .attr(" ++ dq ++ "y" ++ dq ++ ", 0)
                             .attr(" ++ dq ++ "width" ++ dq ++ ", width_{axid})
                             .attr(" ++ dq ++ "height" ++ dq ++ ", height_{axid});
 
    // axes_{axid} is the axes on which to draw plot components: they'll
    // be clipped when zooming or scrolling moves them out of the plot.
    var axes_{axid} = baseaxes_{axid}.append('g')
            .attr(" ++ dq ++ "clip-path" ++ dq ++ ", " ++ dq ++ "url(#clip{axid})" ++ dq ++ ");
    
    {elements}

    function zoomed{axid}() {{
        //console.log(d3.event.translate);
        //console.log(d3.event.scale);
        baseaxes_{axid}.select(" ++ dq ++ ".x.axis" ++ dq ++ ").call(xAxis_{axid});
        baseaxes_{axid}.select(" ++ dq ++ ".y.axis" ++ dq ++ ").call(yAxis_{axid});

        {element_zooms}
    }}
    ".

(** The text [AXES_TEMPLATE.format] produces, cut at the places the
    statements below refer to: the sizes, the two linear scales, the static
    frame, the drawn elements, and the zoom handler with its two axis
    redraws followed by the element updates. *)
Definition sizes_text (axid bbox2 bbox3 : string) : string :=
  "
    // store the width and height of the axes
    var width_" ++ axid ++ " = " ++ bbox2 ++ " * figwidth;
    var height_" ++ axid ++ " = " ++ bbox3 ++ " * figheight
".

Definition scales_text (axid xlim0 xlim1 ylim0 ylim1 : string) : string :=
  "
    // create the x and y axis
    var x_" ++ axid ++ " = d3.scale.linear()
                       .domain([" ++ xlim0 ++ ", " ++ xlim1 ++ "])
                       .range([0, width_" ++ axid ++ "]);

    var y_" ++ axid ++ " = d3.scale.linear()
                       .domain([" ++ ylim0 ++ ", " ++ ylim1 ++ "])
                       .range([height_" ++ axid ++ ", 0]);".

Definition frame_text (axid bbox0 bbox1 bbox3 axesbg : string) : string :=
  "

    // zoom object for the axes
    var zoom" ++ axid ++ " = d3.behavior.zoom()
                    .x(x_" ++ axid ++ ")
                    .y(y_" ++ axid ++ ")
                    .on(" ++ dq ++ "zoom" ++ dq ++ ", zoomed" ++ axid ++ ");

    // create the axes itself
    var baseaxes_" ++ axid ++ " = canvas.append('g')
            .attr('transform', 'translate(' + (" ++ bbox0 ++ " * figwidth) + ',' +
                              ((1 - " ++ bbox1 ++ " - " ++ bbox3 ++ ") * figheight) + ')')
            .attr('width', width_" ++ axid ++ ")
            .attr('height', height_" ++ axid ++ ")
            .attr('class', 'main')
            .call(zoom" ++ axid ++ ");

    // create the axes background
    baseaxes_" ++ axid ++ ".append(" ++ dq ++ "svg:rect" ++ dq ++ ")
                      .attr(" ++ dq ++ "width" ++ dq ++ ", width_" ++ axid ++ ")
                      .attr(" ++ dq ++ "height" ++ dq ++ ", height_" ++ axid ++ ")
                      .attr(" ++ dq ++ "class" ++ dq ++ ", " ++ dq ++ "bg" ++ axid ++ dq ++ ")
                      .attr(" ++ dq ++ "fill" ++ dq ++ ", " ++ dq ++ axesbg ++ dq ++ ");

    // axis factory functions: used for grid lines & axes
    var create_xAxis_" ++ axid ++ " = function(){
       return d3.svg.axis()
            .scale(x_" ++ axid ++ ")
            .orient('bottom');
    }

    var create_yAxis_" ++ axid ++ " = function(){
       return d3.svg.axis()
            .scale(y_" ++ axid ++ ")
            .orient('left');
    }

    // draw the x axis
    var xAxis_" ++ axid ++ " = create_xAxis_" ++ axid ++ "();

    baseaxes_" ++ axid ++ ".append('g')
            .attr('transform', 'translate(0,' + (height_" ++ axid ++ ") + ')')
            .attr('class', 'axes" ++ axid ++ " x axis')
            .call(xAxis_" ++ axid ++ ");

    // draw the y axis
    var yAxis_" ++ axid ++ " = create_yAxis_" ++ axid ++ "();

    baseaxes_" ++ axid ++ ".append('g')
            .attr('transform', 'translate(0,0)')
            .attr('class', 'axes" ++ axid ++ " y axis')
            .call(yAxis_" ++ axid ++ ");

    // create the clip boundary
    var clip_" ++ axid ++ " = baseaxes_" ++ axid ++ ".append(" ++ dq ++ "svg:clipPath" ++ dq ++ ")
                             .attr(" ++ dq ++ "id" ++ dq ++ ", " ++ dq ++ "clip" ++ axid ++ dq ++ ")
                             .append(" ++ dq ++ "svg:rect" ++ dq ++ ")
                             .attr(" ++ dq ++ "x" ++ dq ++ ", 0)
                             .attr(" ++ dq ++ "y" ++ dq ++ ", 0)
                             .attr(" ++ dq ++ "width" ++ dq ++ ", width_" ++ axid ++ ")
                             .attr(" ++ dq ++ "height" ++ dq ++ ", height_" ++ axid ++ ");
 
    // axes_" ++ axid ++ " is the axes on which to draw plot components: they'll
    // be clipped when zooming or scrolling moves them out of the plot.
    var axes_" ++ axid ++ " = baseaxes_" ++ axid ++ ".append('g')
            .attr(" ++ dq ++ "clip-path" ++ dq ++ ", " ++ dq ++ "url(#clip" ++ axid ++ ")" ++ dq ++ ");
    
    ".

Definition zoomed_open_text (axid : string) : string :=
  "

    function zoomed" ++ axid ++ "() {
        //console.log(d3.event.translate);
        //console.log(d3.event.scale);
".

Definition xaxis_redraw_text (axid : string) : string :=
  "        baseaxes_" ++ axid ++ ".select(" ++ dq ++ ".x.axis" ++ dq ++ ").call(xAxis_" ++ axid ++ ");
".

Definition yaxis_redraw_text (axid : string) : string :=
  "        baseaxes_" ++ axid ++ ".select(" ++ dq ++ ".y.axis" ++ dq ++ ").call(yAxis_" ++ axid ++ ");
".

Definition zoomed_body_text (element_zooms : string) : string :=
  "
        " ++ element_zooms ++ "
    }
    ".

Definition zoomed_text (axid element_zooms : string) : string :=
  zoomed_open_text axid ++ xaxis_redraw_text axid ++ yaxis_redraw_text axid
  ++ zoomed_body_text element_zooms.

Definition AXES_TEMPLATE_text
    (axid bbox0 bbox1 bbox2 bbox3 xlim0 xlim1 ylim0 ylim1 axesbg elements element_zooms : string)
  : string :=
  sizes_text axid bbox2 bbox3 ++ scales_text axid xlim0 xlim1 ylim0 ylim1
  ++ frame_text axid bbox0 bbox1 bbox3 axesbg ++ elements
  ++ zoomed_text axid element_zooms.

Record t : Type := mk {
  base : D3Base.t;
  ax : Mpl.Axes.t;
  lines : list D3Line2D.t;
  texts : list D3Text.t;
  grids : list D3Grid.t
}.

Definition figid (self : t) : result string := D3Base.figid (base self).
Definition axid (self : t) : result string := D3Base.axid (base self).

Definition unsupported_attrs : list string :=
  ["images"; "collections"; "containers"; "artists"; "patches"; "tables"].

Definition __init__ (parent : D3Base.t) (ax : Mpl.Axes.t) (i : nat) : Py t :=
  (let self := D3Base._initialize (Some parent) in
   f <- lift (D3Base.figid self) ;;
   let self := D3Base.mk (D3Base.parent self) (D3Base._figid self)
                 (Some (f ++ str_nat i)) in
   lines <- mapM_enumerate
              (fun i line => lift (D3Line2D.__init__ self line (Some (i + 1))))
              0 (Mpl.Axes.lines ax) ;;
   let texts := map (fun text => D3Text.__init__ self ax text)
                  (Mpl.Axes.texts ax ++
                   [Mpl.Axis.label (Mpl.Axes.xaxis ax);
                    Mpl.Axis.label (Mpl.Axes.yaxis ax);
                    Mpl.Axes.title ax])%list in
   let grids := [D3Grid.__init__ self ax] in
   for_each
     (fun attr =>
        l <- lift (Mpl.Axes.getattr ax attr) ;;
        if Nat.ltb 0 (List.length l) then
          msg <- lift (format "{0} not implemented.  Elements will be ignored"
                         [("0", FStr attr)]) ;;
          warn msg
        else pret tt)
     unsupported_attrs ;;;
   (match Mpl.Axes.legend_ ax with
    | Some _ => warn "legend is not implemented: it will be ignored"
    | None => pret tt
    end) ;;;
   pret (mk self ax lines texts grids))%pyw.

(** The members of [self.grids + self.lines + self.texts], on which
    [html] and [zoom] are called by name. *)
Inductive elem : Type :=
| EGrid (g : D3Grid.t)
| ELine (l : D3Line2D.t)
| EText (x : D3Text.t).

Definition elem_html {E : Externals} (e : elem) : result string :=
  match e with
  | EGrid g => D3Grid.html g
  | ELine l => D3Line2D.html l
  | EText x => D3Text.html x
  end.

Definition elem_zoom {E : Externals} (e : elem) : result string :=
  match e with
  | EGrid g => D3Grid.zoom g
  | ELine l => D3Line2D.zoom l
  | EText x => D3Text.zoom x
  end.

(** [self.grids + self.lines + self.texts]. *)
Definition elems (self : t) : list elem :=
  (map EGrid (grids self) ++ map ELine (lines self) ++ map EText (texts self))%list.

Definition style {E : Externals} (self : t) : result string :=
  (let ticks := (Mpl.Axis.get_ticklabels (Mpl.Axes.xaxis (ax self)) ++
                 Mpl.Axis.get_ticklabels (Mpl.Axes.yaxis (ax self)))%list in
   fontsize_x <- (if Nat.eqb (List.length ticks) 0 then Ok "11"
                  else t0 <- getitem ticks 0 ;; Ok (repr_float (Mpl.Text.get_size t0))) ;;
   a <- axid self ;;
   f <- figid self ;;
   s <- format STYLE [("axid", FStr a); ("figid", FStr f); ("fontsize", FStr fontsize_x)] ;;
   gs <- mapM D3Grid.style (grids self) ;;
   ls <- mapM D3Line2D.style (lines self) ;;
   ts <- mapM D3Text.style (texts self) ;;
   Ok (join nl ([s] ++ gs ++ ls ++ ts)%list))%py.

Definition str_pair {E : Externals} (p : float * float) : fval :=
  FSeq [repr_float (fst p); repr_float (snd p)].

Definition html {E : Externals} (self : t) : result string :=
  (es <- mapM elem_html (elems self) ;;
   let elements := join nl es in
   zs <- mapM elem_zoom (elems self) ;;
   let zooms := join nl zs in
   a <- axid self ;;
   format AXES_TEMPLATE [("id", FStr (str_nat (Mpl.Axes.oid (ax self))));
                         ("axid", FStr a);
                         ("xlim", str_pair (Mpl.Axes.get_xlim (ax self)));
                         ("ylim", str_pair (Mpl.Axes.get_ylim (ax self)));
                         ("bbox", D3Grid.str_bounds (Mpl.Axes.bounds (ax self)));
                         ("axesbg", FStr "#FCFCFC");
                         ("elements", FStr elements);
                         ("element_zooms", FStr zooms)])%py.

End D3Axes.

(** ** class D3Figure *)
Module D3Figure.

(** The template constants of the class, as they are written, each
    followed by the text that [format] makes of it, as a function of the
    fields it uses (the lemmas [format_...] below relate the two). *)

Definition D3_IMPORT : string :=
  "
    <script type=" ++ dq ++ "text/javascript" ++ dq ++ " src=" ++ dq ++ "http://d3js.org/d3.v3.min.js" ++ dq ++ "></script>
    ".

Definition STYLE : string :=
  "
    <style>
    {styles}
    </style>
    ".

Definition STYLE_text (styles : string) : string :=
  "
    <style>
    " ++ styles ++ "
    </style>
    ".

Definition FIGURE_TEMPLATE : string :=
  "
    <div id='figure{figid}'></div>

    <script type=" ++ dq ++ "text/javascript" ++ dq ++ ">
    func{figid} = function(figure){{

    var figwidth = {figwidth} * {dpi};
    var figheight = {figheight} * {dpi};

    var canvas = figure.append('svg:svg')
                   .attr('width', figwidth)
                   .attr('height', figheight)
                   .attr('class', 'canvas')

    {axes}

    }}

    // set a timeout of 0 to allow d3.js to load
    setTimeout(function(){{ func{figid}(d3.select('#figure{figid}')) }}, 0)
    </script>
    ".

Definition FIGURE_TEMPLATE_text (figid figwidth dpi figheight axes : string) : string :=
  "
    <div id='figure" ++ figid ++ "'></div>

    <script type=" ++ dq ++ "text/javascript" ++ dq ++ ">
    func" ++ figid ++ " = function(figure){

    var figwidth = " ++ figwidth ++ " * " ++ dpi ++ ";
    var figheight = " ++ figheight ++ " * " ++ dpi ++ ";

    var canvas = figure.append('svg:svg')
                   .attr('width', figwidth)
                   .attr('height', figheight)
                   .attr('class', 'canvas')

    " ++ axes ++ "

    }

    // set a timeout of 0 to allow d3.js to load
    setTimeout(function(){ func" ++ figid ++ "(d3.select('#figure" ++ figid ++ "')) }, 0)
    </script>
    ".

Record t : Type := mk {
  base : D3Base.t;
  fig : Mpl.Figure.t;
  axes : list D3Axes.t
}.

(** [str(uuid.uuid4()).replace('-', '')], the random draw [uuid4] being
    an input. *)
Definition generate_figid (uuid4 : string) : string := remove_char "-" uuid4.

Definition __init__ (uuid4 : string) (fig : Mpl.Figure.t) : Py t :=
  (let self := D3Base._initialize None in
   let self := D3Base.mk (D3Base.parent self) (Some (generate_figid uuid4))
                 (D3Base._axid self) in
   axes <- mapM_enumerate (fun i ax => D3Axes.__init__ self ax (i + 1))
             0 (Mpl.Figure.axes fig) ;;
   pret (mk self fig axes))%pyw.

Definition figid (self : t) : result string := D3Base.figid (base self).

Definition style {E : Externals} (self : t) : result string :=
  (ss <- mapM D3Axes.style (axes self) ;;
   format STYLE [("styles", FStr (join nl ss))])%py.

Definition html {E : Externals} (self : t) : result string :=
  (hs <- mapM D3Axes.html (axes self) ;;
   let axes := join nl hs in
   f <- figid self ;;
   fig <- format FIGURE_TEMPLATE
            [("figid", FStr f);
             ("figwidth", FStr (repr_float (Mpl.Figure.get_figwidth (fig self))));
             ("figheight", FStr (repr_float (Mpl.Figure.get_figheight (fig self))));
             ("dpi", FStr (repr_float (Mpl.Figure.dpi (fig self))));
             ("axes", FStr axes)] ;;
   s <- style self ;;
   Ok (D3_IMPORT ++ s ++ fig))%py.

End D3Figure.

(** ** Vocabulary of the statements *)

(** *** What the constructors build *)

Definition fig_base (fid : string) : D3Base.t := D3Base.mk None (Some fid) None.

Definition axes_base (parent : D3Base.t) (aid : string) : D3Base.t :=
  D3Base.mk (Some parent) None (Some aid).

Definition child_base (p : D3Base.t) : D3Base.t := D3Base.mk (Some p) None None.

(** The lines of an axes with id [aid], numbered from [j + 1]. *)
Fixpoint built_lines (self : D3Base.t) (aid : string) (j : nat)
    (ls : list Mpl.Line2D.t) : list D3Line2D.t :=
  match ls with
  | [] => []
  | l :: ls' =>
      D3Line2D.mk (child_base self) l (aid ++ str_nat (j + 1))
      :: built_lines self aid (S j) ls'
  end.

(** The texts an axes is given: the annotations, then the two axis labels
    and the title. *)
Definition source_texts (ax : Mpl.Axes.t) : list Mpl.Text.t :=
  (Mpl.Axes.texts ax ++
   [Mpl.Axis.label (Mpl.Axes.xaxis ax); Mpl.Axis.label (Mpl.Axes.yaxis ax);
    Mpl.Axes.title ax])%list.

Definition built_axes (parent : D3Base.t) (fid : string) (i : nat)
    (ax : Mpl.Axes.t) : D3Axes.t :=
  let self := axes_base parent (fid ++ str_nat i) in
  D3Axes.mk self ax
    (built_lines self (fid ++ str_nat i) 0 (Mpl.Axes.lines ax))
    (map (fun x => D3Text.mk (child_base self) ax x) (source_texts ax))
    [D3Grid.mk (child_base self) ax].

Fixpoint built_axes_list (parent : D3Base.t) (fid : string) (i : nat)
    (axs : list Mpl.Axes.t) : list D3Axes.t :=
  match axs with
  | [] => []
  | ax :: axs' =>
      built_axes parent fid (i + 1) ax :: built_axes_list parent fid (S i) axs'
  end.

Definition built_figure (uuid4 : string) (fig : Mpl.Figure.t) : D3Figure.t :=
  let fid := D3Figure.generate_figid uuid4 in
  D3Figure.mk (fig_base fid) fig
    (built_axes_list (fig_base fid) fid 0 (Mpl.Figure.axes fig)).

(** *** The warnings an axes gives rise to *)

Definition kind_warning (kind : string) (l : list Mpl.Artist) : list string :=
  match l with
  | [] => []
  | _ :: _ => [kind ++ " not implemented.  Elements will be ignored"]
  end.

Definition legend_warning (l : option Mpl.Artist) : list string :=
  match l with
  | Some _ => ["legend is not implemented: it will be ignored"]
  | None => []
  end.

Definition warnings_of (ax : Mpl.Axes.t) : list string :=
  (kind_warning "images" (Mpl.Axes.images ax)
   ++ kind_warning "collections" (Mpl.Axes.collections ax)
   ++ kind_warning "containers" (Mpl.Axes.containers ax)
   ++ kind_warning "artists" (Mpl.Axes.artists ax)
   ++ kind_warning "patches" (Mpl.Axes.patches ax)
   ++ kind_warning "tables" (Mpl.Axes.tables ax)
   ++ legend_warning (Mpl.Axes.legend_ ax))%list.

(** *** Reading the emitted text *)

(** The rest of [s] after the prefix [p]. *)
Fixpoint drop_prefix (p s : string) : option string :=
  match p with
  | EmptyString => Some s
  | String c p' =>
      match s with
      | EmptyString => None
      | String d s' => if Ascii.eqb c d then drop_prefix p' s' else None
      end
  end.

(** [needle in s]. *)
Fixpoint occurs (needle s : string) : bool :=
  match drop_prefix needle s with
  | Some _ => true
  | None =>
      match s with
      | EmptyString => false
      | String _ s' => occurs needle s'
      end
  end.

(** [s.find(needle)], [None] standing for -1. *)
Fixpoint index_of (needle s : string) : option nat :=
  match drop_prefix needle s with
  | Some _ => Some 0
  | None =>
      match s with
      | EmptyString => None
      | String _ s' => option_map S (index_of needle s')
      end
  end.

(** The number of positions of [s] at which [needle] starts. *)
Fixpoint count_occurs (needle s : string) : nat :=
  (match drop_prefix needle s with
   | Some _ => 1
   | None => 0
   end)
  + match s with
    | EmptyString => 0
    | String _ s' => count_occurs needle s'
    end.

(** The characters of [s] before the first [q]. *)
Fixpoint until_char (q : ascii) (s : string) : option string :=
  match s with
  | EmptyString => None
  | String c s' =>
      if Ascii.eqb c q then Some EmptyString
      else option_map (String c) (until_char q s')
  end.

Definition is_quote (c : ascii) : bool :=
  Ascii.eqb c "'" || Ascii.eqb c (ascii_of_nat 34).

(** The names [n] of all the calls [.attr('n', ...)] in a piece of
    javascript, in order. *)
Fixpoint attr_names (s : string) : list string :=
  match s with
  | EmptyString => []
  | String _ s' =>
      match drop_prefix ".attr(" s with
      | Some (String q r) =>
          if is_quote q then
            match until_char q r with
            | Some n => n :: attr_names s'
            | None => attr_names s'
            end
          else attr_names s'
      | _ => attr_names s'
      end
  end.

(** The characters of the generated ids: the lower-case hexadecimal digits
    of a uuid and the decimal digits of the positions. *)
Definition is_idchar (c : ascii) : bool :=
  let n := nat_of_ascii c in
  (Nat.leb 48 n && Nat.leb n 57) || (Nat.leb 97 n && Nat.leb n 102).

Fixpoint idstring (s : string) : bool :=
  match s with
  | EmptyString => true
  | String c s' => is_idchar c && idstring s'
  end.

(** What [str(uuid.uuid4())] can be made of. *)
Fixpoint uuid_chars (s : string) : bool :=
  match s with
  | EmptyString => true
  | String c s' => (is_idchar c || Ascii.eqb c "-") && uuid_chars s'
  end.

(** The id attribute an element carries: [lineid] is set by the
    constructor of [D3Line2D]; [D3Grid] and [D3Text] set none. *)
Definition elem_id (e : D3Axes.elem) : option string :=
  match e with
  | D3Axes.ELine l => Some (D3Line2D.lineid l)
  | D3Axes.EGrid _ => None
  | D3Axes.EText _ => None
  end.

(** The [D3Base] part of an element. *)
Definition elem_base (e : D3Axes.elem) : D3Base.t :=
  match e with
  | D3Axes.EGrid g => D3Grid.base g
  | D3Axes.ELine l => D3Line2D.base l
  | D3Axes.EText x => D3Text.base x
  end.

(** The list [D3Grid.style] indexes. *)
Definition gridlines_of (ax : Mpl.Axes.t) : list Mpl.Line2D.t :=
  (Mpl.Axis.get_gridlines (Mpl.Axes.xaxis ax) ++
   Mpl.Axis.get_gridlines (Mpl.Axes.yaxis ax))%list.

(** The five values that [has_line] and [has_points] take as absent. *)
Definition absent_values : list (option string) :=
  [Some EmptyString; Some " "; Some "None"; Some "none"; None].

(** *** The parent chain, unsupported content, tick labels *)

(** A node followed by its parent, the parent of its parent, and so on. *)
Fixpoint ancestors (self : D3Base.t) : list D3Base.t :=
  match self with
  | D3Base.mk p _ _ =>
      self :: match p with
              | Some q => ancestors q
              | None => []
              end
  end.

(** The first value that is present. *)
Fixpoint first_some {A : Type} (l : list (option A)) : option A :=
  match l with
  | [] => None
  | Some x :: _ => Some x
  | None :: l' => first_some l'
  end.

(** An axes without any content of an unsupported kind. *)
Definition no_unsupported (ax : Mpl.Axes.t) : bool :=
  match Mpl.Axes.images ax, Mpl.Axes.collections ax, Mpl.Axes.containers ax,
        Mpl.Axes.artists ax, Mpl.Axes.patches ax, Mpl.Axes.tables ax,
        Mpl.Axes.legend_ ax with
  | [], [], [], [], [], [], None => true
  | _, _, _, _, _, _, _ => false
  end.

(** An axes with at least one gridline object. *)
Definition has_gridlines (ax : Mpl.Axes.t) : bool :=
  match gridlines_of ax with
  | [] => false
  | _ :: _ => true
  end.

(** The list [D3Axes.style] takes the font size from. *)
Definition ticklabels_of (ax : Mpl.Axes.t) : list Mpl.Text.t :=
  (Mpl.Axis.get_ticklabels (Mpl.Axes.xaxis ax) ++
   Mpl.Axis.get_ticklabels (Mpl.Axes.yaxis ax))%list.

(** *** Sample inputs

    A stand-in for the imported helpers and a few matplotlib objects, used
    where a statement is evaluated on a concrete figure. *)

Definition demo_repr_float (f : float) : string :=
  if PrimFloat.eqb f 0 then "0.0"
  else if PrimFloat.eqb f 1 then "1.0"
  else if PrimFloat.eqb f 0.5 then "0.5"
  else if PrimFloat.eqb f 10 then "10.0"
  else if PrimFloat.eqb f 60 then "60.0"
  else "8.0".

Definition demo : Externals := {|
  repr_float := demo_repr_float;
  color_to_hex := fun c => match c with
                           | Mpl.ColorSpec s => s
                           | _ => "#000000"
                           end;
  get_dasharray := fun _ => "10,0";
  get_d3_shape_for_marker := fun _ => "circle";
  get_text_coordinates := fun _ => (0%float, 0%float)
|}.

Definition black : Mpl.color := Mpl.ColorSpec "#000000".

Definition sample_line (linestyle marker : option string) : Mpl.Line2D.t :=
  Mpl.Line2D.mk linestyle marker None black 1 6 black black 0.5
    [(0, 0); (0.5, 0.5); (1, 1)]%float.

Definition sample_text (oid : nat) (s : string) : Mpl.Text.t :=
  Mpl.Text.mk oid s black 10 0 0.

Definition sample_axis (grid : bool) (gridlines : list Mpl.Line2D.t)
    (label_oid : nat) : Mpl.Axis.t :=
  Mpl.Axis.mk grid gridlines [] (sample_text label_oid EmptyString).

(** An axes over the unit square with the given lines, grid flags,
    gridlines, images and x domain. *)
Definition sample_axes (lines : list Mpl.Line2D.t) (xgrid ygrid : bool)
    (gridlines : list Mpl.Line2D.t) (images : list Mpl.Artist)
    (xlim : float * float) : Mpl.Axes.t :=
  Mpl.Axes.mk 7 lines [] (sample_axis xgrid gridlines 1)
    (sample_axis ygrid gridlines 2) (sample_text 3 EmptyString)
    images [] [] [] [] [] None xlim (0, 1)%float (0, 0, 1, 1)%float 9.

Definition sample_figure (axs : list Mpl.Axes.t) : Mpl.Figure.t :=
  Mpl.Figure.mk axs 8 6 60.

Definition sample_uuid : string := "123e4567-e89b-42d3-a456-426614174000".

Definition gridline : Mpl.Line2D.t := sample_line (Some ":") (Some "None").

(** The first axes of a figure with id ["ab"], its grid when only the y
    grid is on, and its first line, solid with round markers. *)
Definition sample_axes_base : D3Base.t := axes_base (fig_base "ab") "ab1".

Definition sample_grid : D3Grid.t :=
  D3Grid.mk (child_base sample_axes_base)
    (sample_axes [] false true [gridline] [] (0, 1)%float).

Definition sample_d3line : D3Line2D.t :=
  D3Line2D.mk (child_base sample_axes_base) (sample_line (Some "-") (Some "o"))
    "ab11".

(** A figure of eleven axes, the first with eleven lines, the others with
    one line each. *)
Definition sample_wide_figure : Mpl.Figure.t :=
  sample_figure
    (sample_axes (repeat (sample_line (Some "-") (Some "None")) 11) false false
       [gridline] [] (0, 1)%float
     :: repeat
          (sample_axes [sample_line (Some "-") (Some "None")] false false
             [gridline] [] (0, 1)%float) 10).

(** A line through two other points. *)
Definition other_line : Mpl.Line2D.t :=
  Mpl.Line2D.mk (Some "-") (Some "None") None black 1 6 black black 0.5
    [(1, 0); (0, 1)]%float.

(** The k-th axes of a figure, over the unit square, with its own object
    identities. *)
Definition numbered_axes (k : nat) (lines : list Mpl.Line2D.t) : Mpl.Axes.t :=
  Mpl.Axes.mk (10 * k) lines []
    (Mpl.Axis.mk false [gridline] [] (sample_text (10 * k + 1) EmptyString))
    (Mpl.Axis.mk false [gridline] [] (sample_text (10 * k + 2) EmptyString))
    (sample_text (10 * k + 3) EmptyString)
    [] [] [] [] [] [] None (0, 1)%float (0, 1)%float (0, 0, 1, 1)%float
    (10 * k + 4).

(** A figure of eleven axes: the first holds eleven lines through the
    points of [sample_line], each of the ten others one line through the
    points of [other_line]. *)
Definition collision_figure : Mpl.Figure.t :=
  Mpl.Figure.mk
    (numbered_axes 1 (repeat (sample_line (Some "-") (Some "None")) 11)
     :: map (fun k => numbered_axes k [other_line]) (seq 2 10))
    10 10 60.

(** The id of the figure built from [sample_uuid]. *)
Definition sample_figid : string := D3Figure.generate_figid sample_uuid.

(** ** Properties *)

Unset Implicit Arguments.

(** *** Strings and the two monads *)

Lemma append_assoc (a b c : string) : (a ++ b) ++ c = a ++ b ++ c.
Proof. induction a as [|x a IH]; simpl; [reflexivity | now rewrite IH]. Qed.

Lemma append_nil_r (a : string) : a ++ EmptyString = a.
Proof. induction a as [|x a IH]; simpl; [reflexivity | now rewrite IH]. Qed.

Lemma append_inv_head (a b c : string) : a ++ b = a ++ c -> b = c.
Proof.
  induction a as [|x a IH]; simpl; intros H; [exact H|].
  injection H as H. now apply IH.
Qed.

Example format_positional :
  format "{0}{1}" [("0", FStr "ab12"); ("1", FStr "3")] = Ok "ab123".
Proof. reflexivity. Qed.

Example format_escape_and_index :
  format "f{{x}} = {bbox[2]} * {k}"
    [("k", FStr "w"); ("bbox", FSeq ["a"; "b"; "c"; "d"])]
  = Ok "f{x} = c * w".
Proof. reflexivity. Qed.

Example format_missing_key :
  format "{axid}" [("figid", FStr "f")] = Err KeyError.
Proof. reflexivity. Qed.

Example format_single_brace : format "a } b" [] = Err ValueError.
Proof. reflexivity. Qed.

(** *** has_line and has_points *)

Lemma not_in_absent_false (x : option string) :
  D3Line2D.not_in_absent x = false <-> In x absent_values.
Proof.
  unfold absent_values. destruct x as [s|]; simpl.
  - rewrite Bool.negb_false_iff, !Bool.orb_true_iff, !String.eqb_eq.
    split.
    + intros [[[H|H]|H]|H]; subst; auto.
    + intros [H|[H|[H|[H|[H|[]]]]]]; try (injection H as <-); auto.
      discriminate.
  - split; auto 6.
Qed.

(** C3, as the code has it: [has_line] is false exactly when the line style
    is one of the five values [''], [' '], ['None'], ['none'] and [None],
    compared as they are spelt; [has_points] tests the marker against the
    same five values. *)
Theorem has_line_has_points_absent (l : D3Line2D.t) :
  (D3Line2D.has_line l = false
   <-> In (Mpl.Line2D.get_linestyle (D3Line2D.line l)) absent_values)
  /\ (D3Line2D.has_points l = false
      <-> In (Mpl.Line2D.get_marker (D3Line2D.line l)) absent_values).
Proof.
  split; apply not_in_absent_false.
Qed.

(** C3, as the claim has it, fails: a style or marker spelt ["NONE"], and a
    style of two blanks, are not among the five values, so such a line has
    a stroke and points. *)
Lemma upper_case_none_is_present :
  D3Line2D.has_line
    (D3Line2D.mk (child_base (fig_base "f")) (sample_line (Some "NONE") (Some "NONE")) "f11")
  = true
  /\ D3Line2D.has_points
       (D3Line2D.mk (child_base (fig_base "f")) (sample_line (Some "NONE") (Some "NONE")) "f11")
     = true
  /\ D3Line2D.has_line
       (D3Line2D.mk (child_base (fig_base "f")) (sample_line (Some "  ") (Some "o")) "f11")
     = true.
Proof. repeat split. Qed.
(** *** The templates, formatted *)

Lemma format_lineid (a s : string) :
  format "{0}{1}" [("0", FStr a); ("1", FStr s)] = Ok (a ++ s).
Proof.
  transitivity (Ok (a ++ s ++ EmptyString)); [reflexivity|].
  now rewrite append_nil_r.
Qed.

Lemma format_warning (kind : string) :
  format "{0} not implemented.  Elements will be ignored" [("0", FStr kind)]
  = Ok (kind ++ " not implemented.  Elements will be ignored").
Proof. reflexivity. Qed.

Lemma format_XZOOM (a : string) (bbox : fval) :
  format D3Grid.XZOOM [("axid", FStr a); ("bbox", bbox)] = Ok (D3Grid.XZOOM_text a).
Proof. vm_compute. reflexivity. Qed.

Lemma format_YZOOM (a : string) (bbox : fval) :
  format D3Grid.YZOOM [("axid", FStr a); ("bbox", bbox)] = Ok (D3Grid.YZOOM_text a).
Proof. vm_compute. reflexivity. Qed.

Lemma format_XGRID (a : string) (bbox : fval) :
  format D3Grid.XGRID_TEMPLATE [("axid", FStr a); ("bbox", bbox)]
  = Ok (D3Grid.XGRID_TEMPLATE_text a).
Proof. vm_compute. reflexivity. Qed.

Lemma format_YGRID (a : string) (bbox : fval) :
  format D3Grid.YGRID_TEMPLATE [("axid", FStr a); ("bbox", bbox)]
  = Ok (D3Grid.YGRID_TEMPLATE_text a).
Proof. vm_compute. reflexivity. Qed.

Lemma format_grid_STYLE (color alpha f dasharray : string) :
  format D3Grid.STYLE [("color", FStr color); ("alpha", FStr alpha);
                       ("figid", FStr f); ("dasharray", FStr dasharray)]
  = Ok (D3Grid.STYLE_text f color dasharray alpha).
Proof. vm_compute. reflexivity. Qed.

Lemma format_POINTS_ZOOM (lineid a : string) :
  format D3Line2D.POINTS_ZOOM [("lineid", FStr lineid); ("axid", FStr a)]
  = Ok (D3Line2D.POINTS_ZOOM_text a lineid).
Proof. vm_compute. reflexivity. Qed.

Lemma format_LINE_ZOOM (lineid a : string) :
  format D3Line2D.LINE_ZOOM [("lineid", FStr lineid); ("axid", FStr a)]
  = Ok (D3Line2D.LINE_ZOOM_text a lineid).
Proof. vm_compute. reflexivity. Qed.

Lemma format_DATA (lineid data : string) :
  format D3Line2D.DATA_TEMPLATE [("lineid", FStr lineid); ("data", FStr data)]
  = Ok (D3Line2D.DATA_TEMPLATE_text lineid data).
Proof. vm_compute. reflexivity. Qed.

Lemma format_POINTS (lineid a ms msh data : string) :
  format D3Line2D.POINTS_TEMPLATE
    [("lineid", FStr lineid); ("axid", FStr a); ("markersize", FStr ms);
     ("markershape", FStr msh); ("data", FStr data)]
  = Ok (D3Line2D.POINTS_TEMPLATE_text lineid a msh ms).
Proof. vm_compute. reflexivity. Qed.

Lemma format_LINE (lineid a data : string) :
  format D3Line2D.LINE_TEMPLATE
    [("lineid", FStr lineid); ("axid", FStr a); ("data", FStr data)]
  = Ok (D3Line2D.LINE_TEMPLATE_text lineid a).
Proof. vm_compute. reflexivity. Qed.

Lemma format_line_STYLE (f lineid lc lw ms mew mec mc dasharray alpha : string) :
  format D3Line2D.STYLE
    [("figid", FStr f); ("lineid", FStr lineid); ("linecolor", FStr lc);
     ("linewidth", FStr lw); ("markersize", FStr ms); ("markeredgewidth", FStr mew);
     ("markeredgecolor", FStr mec); ("markercolor", FStr mc);
     ("dasharray", FStr dasharray); ("alpha", FStr alpha)]
  = Ok (D3Line2D.STYLE_text f lineid lc lw dasharray alpha mew mec mc).
Proof. vm_compute. reflexivity. Qed.

Lemma format_TEXT (text x y fontsize color rotation anchor : string) :
  format D3Text.TEXT_TEMPLATE
    [("text", FStr text); ("x", FStr x); ("y", FStr y); ("fontsize", FStr fontsize);
     ("color", FStr color); ("rotation", FStr rotation); ("anchor", FStr anchor)]
  = Ok (D3Text.TEXT_TEMPLATE_text text x y fontsize color rotation anchor).
Proof. vm_compute. reflexivity. Qed.

Lemma format_axes_STYLE (a f fontsize : string) :
  format D3Axes.STYLE [("axid", FStr a); ("figid", FStr f); ("fontsize", FStr fontsize)]
  = Ok (D3Axes.STYLE_text f a fontsize).
Proof. vm_compute. reflexivity. Qed.

Lemma format_AXES (id a x0 x1 y0 y1 b0 b1 b2 b3 bg els zs : string) :
  format D3Axes.AXES_TEMPLATE
    [("id", FStr id); ("axid", FStr a); ("xlim", FSeq [x0; x1]);
     ("ylim", FSeq [y0; y1]); ("bbox", FSeq [b0; b1; b2; b3]);
     ("axesbg", FStr bg); ("elements", FStr els); ("element_zooms", FStr zs)]
  = Ok (D3Axes.AXES_TEMPLATE_text a b0 b1 b2 b3 x0 x1 y0 y1 bg els zs).
Proof.
  unfold D3Axes.AXES_TEMPLATE_text, D3Axes.zoomed_text, D3Axes.sizes_text,
    D3Axes.scales_text, D3Axes.frame_text, D3Axes.zoomed_open_text,
    D3Axes.xaxis_redraw_text, D3Axes.yaxis_redraw_text, D3Axes.zoomed_body_text.
  rewrite !append_assoc.
  vm_compute. reflexivity.
Qed.

Lemma format_figure_STYLE (styles : string) :
  format D3Figure.STYLE [("styles", FStr styles)] = Ok (D3Figure.STYLE_text styles).
Proof. vm_compute. reflexivity. Qed.

Lemma format_FIGURE (f w h dpi axes : string) :
  format D3Figure.FIGURE_TEMPLATE
    [("figid", FStr f); ("figwidth", FStr w); ("figheight", FStr h);
     ("dpi", FStr dpi); ("axes", FStr axes)]
  = Ok (D3Figure.FIGURE_TEMPLATE_text f w dpi h axes).
Proof. vm_compute. reflexivity. Qed.
(** *** Looking ids up through the parents *)

Lemma figid_child (p : D3Base.t) : D3Base.figid (child_base p) = D3Base.figid p.
Proof. reflexivity. Qed.

Lemma axid_child (p : D3Base.t) : D3Base.axid (child_base p) = D3Base.axid p.
Proof. reflexivity. Qed.

Lemma figid_axes_base (p : D3Base.t) (aid : string) :
  D3Base.figid (axes_base p aid) = D3Base.figid p.
Proof. reflexivity. Qed.

Lemma axid_axes_base (p : D3Base.t) (aid : string) :
  D3Base.axid (axes_base p aid) = Ok aid.
Proof. reflexivity. Qed.

(** *** The constructors *)

Lemma D3Line2D_init_eq (p : D3Base.t) (a : string) (line : Mpl.Line2D.t) (n : nat) :
  D3Base.axid p = Ok a ->
  D3Line2D.__init__ p line (Some n)
  = Ok (D3Line2D.mk (child_base p) line (a ++ str_nat n)).
Proof.
  intros H. unfold D3Line2D.__init__.
  change (D3Base._initialize (Some p)) with (child_base p).
  rewrite axid_child, H. cbn [rbind].
  now rewrite format_lineid.
Qed.

Lemma lines_init_eq (self : D3Base.t) (aid : string) (ls : list Mpl.Line2D.t) :
  D3Base.axid self = Ok aid ->
  forall (j : nat) (w : list string),
    mapM_enumerate
      (fun i line => lift (D3Line2D.__init__ self line (Some (i + 1)))) j ls w
    = Ok (built_lines self aid j ls, w).
Proof.
  intros H. induction ls as [|l ls IH]; intros j w; [reflexivity|].
  cbn [mapM_enumerate built_lines]. unfold pbind at 1.
  unfold lift at 1. rewrite (D3Line2D_init_eq self aid l (j + 1) H).
  unfold pbind at 1. now rewrite IH.
Qed.

Lemma unsupported_loop_eq (ax : Mpl.Axes.t) (w : list string) :
  for_each
    (fun attr =>
       (l <- lift (Mpl.Axes.getattr ax attr) ;;
        if Nat.ltb 0 (List.length l) then
          msg <- lift (format "{0} not implemented.  Elements will be ignored"
                         [("0", FStr attr)]) ;;
          warn msg
        else pret tt)%pyw)
    D3Axes.unsupported_attrs w
  = Ok (tt, (w ++ kind_warning "images" (Mpl.Axes.images ax)
               ++ kind_warning "collections" (Mpl.Axes.collections ax)
               ++ kind_warning "containers" (Mpl.Axes.containers ax)
               ++ kind_warning "artists" (Mpl.Axes.artists ax)
               ++ kind_warning "patches" (Mpl.Axes.patches ax)
               ++ kind_warning "tables" (Mpl.Axes.tables ax))%list).
Proof.
  unfold D3Axes.unsupported_attrs, for_each, pbind, lift, warn, pret.
  cbn [Mpl.Axes.getattr String.eqb Ascii.eqb Bool.eqb].
  rewrite !format_warning.
  destruct (Mpl.Axes.images ax), (Mpl.Axes.collections ax),
    (Mpl.Axes.containers ax), (Mpl.Axes.artists ax), (Mpl.Axes.patches ax),
    (Mpl.Axes.tables ax);
    cbn [List.length Nat.ltb Nat.leb kind_warning];
    rewrite ?app_nil_r, <- ?app_assoc; reflexivity.
Qed.

Lemma D3Axes_init_eq (parent : D3Base.t) (fid : string) (ax : Mpl.Axes.t)
    (i : nat) (w : list string) :
  D3Base.figid parent = Ok fid ->
  D3Axes.__init__ parent ax i w
  = Ok (built_axes parent fid i ax, (w ++ warnings_of ax)%list).
Proof.
  intros H. unfold D3Axes.__init__.
  change (D3Base._initialize (Some parent)) with (child_base parent).
  unfold pbind at 1. unfold lift at 1. rewrite figid_child, H.
  change (D3Base.mk (D3Base.parent (child_base parent))
            (D3Base._figid (child_base parent)) (Some (fid ++ str_nat i)))
    with (axes_base parent (fid ++ str_nat i)).
  unfold pbind at 1.
  rewrite (lines_init_eq _ _ (Mpl.Axes.lines ax) (axid_axes_base parent (fid ++ str_nat i))).
  unfold pbind at 1. rewrite unsupported_loop_eq.
  unfold pbind, pret, warn, built_axes, warnings_of, source_texts.
  destruct (Mpl.Axes.legend_ ax); cbn [legend_warning];
    rewrite ?app_nil_r, <- ?app_assoc; reflexivity.
Qed.

Lemma D3Axes_init_err (parent : D3Base.t) (e : exn) (ax : Mpl.Axes.t)
    (i : nat) (w : list string) :
  D3Base.figid parent = Err e -> D3Axes.__init__ parent ax i w = Err e.
Proof.
  intros H. unfold D3Axes.__init__.
  change (D3Base._initialize (Some parent)) with (child_base parent).
  unfold pbind at 1. unfold lift at 1. now rewrite figid_child, H.
Qed.

Lemma axes_list_init_eq (parent : D3Base.t) (fid : string) (axs : list Mpl.Axes.t) :
  D3Base.figid parent = Ok fid ->
  forall (i : nat) (w : list string),
    mapM_enumerate (fun i ax => D3Axes.__init__ parent ax (i + 1)) i axs w
    = Ok (built_axes_list parent fid i axs, (w ++ flat_map warnings_of axs)%list).
Proof.
  intros H. induction axs as [|ax axs IH]; intros i w.
  - cbn. now rewrite app_nil_r.
  - cbn [mapM_enumerate built_axes_list flat_map]. unfold pbind at 1.
    rewrite (D3Axes_init_eq parent fid ax (i + 1) w H). unfold pbind at 1.
    rewrite IH. unfold pret. now rewrite app_assoc.
Qed.

Lemma D3Figure_init_eq (uuid4 : string) (fig : Mpl.Figure.t) (w : list string) :
  D3Figure.__init__ uuid4 fig w
  = Ok (built_figure uuid4 fig,
        (w ++ flat_map warnings_of (Mpl.Figure.axes fig))%list).
Proof.
  unfold D3Figure.__init__.
  change (D3Base.mk (D3Base.parent (D3Base._initialize None))
            (Some (D3Figure.generate_figid uuid4))
            (D3Base._axid (D3Base._initialize None)))
    with (fig_base (D3Figure.generate_figid uuid4)).
  unfold pbind.
  rewrite (axes_list_init_eq (fig_base (D3Figure.generate_figid uuid4))
             (D3Figure.generate_figid uuid4) (Mpl.Figure.axes fig) eq_refl 0 w).
  reflexivity.
Qed.
(** *** The built tree *)

Lemma built_lines_line (self : D3Base.t) (aid : string) (ls : list Mpl.Line2D.t) :
  forall j, map D3Line2D.line (built_lines self aid j ls) = ls.
Proof.
  induction ls as [|l ls IH]; intros j; cbn; [reflexivity | now rewrite IH].
Qed.

Lemma built_lines_length (self : D3Base.t) (aid : string) (ls : list Mpl.Line2D.t) :
  forall j, List.length (built_lines self aid j ls) = List.length ls.
Proof.
  induction ls as [|l ls IH]; intros j; cbn; [reflexivity | now rewrite IH].
Qed.

Lemma built_lines_nth (self : D3Base.t) (aid : string) (ls : list Mpl.Line2D.t) :
  forall j k l,
    nth_error (built_lines self aid j ls) k = Some l ->
    D3Line2D.base l = child_base self
    /\ D3Line2D.lineid l = aid ++ str_nat (j + k + 1).
Proof.
  induction ls as [|x ls IH]; intros j k l H.
  - destruct k; discriminate.
  - destruct k as [|k]; cbn in H.
    + injection H as <-. cbn. now rewrite Nat.add_0_r.
    + apply IH in H. now replace (j + S k + 1) with (S j + k + 1) by lia.
Qed.

Lemma built_axes_list_nth (p : D3Base.t) (fid : string) (axs : list Mpl.Axes.t) :
  forall i k a,
    nth_error (built_axes_list p fid i axs) k = Some a ->
    exists ax, nth_error axs k = Some ax /\ a = built_axes p fid (i + k + 1) ax.
Proof.
  induction axs as [|x axs IH]; intros i k a H.
  - destruct k; discriminate.
  - destruct k as [|k]; cbn in H.
    + injection H as <-. exists x. now rewrite Nat.add_0_r.
    + apply IH in H. now replace (i + S k + 1) with (S i + k + 1) by lia.
Qed.

Lemma built_axes_list_Forall2 (P : Mpl.Axes.t -> D3Axes.t -> Prop)
    (p : D3Base.t) (fid : string) (axs : list Mpl.Axes.t) :
  (forall i ax, P ax (built_axes p fid i ax)) ->
  forall i, Forall2 P axs (built_axes_list p fid i axs).
Proof.
  intros H. induction axs as [|x axs IH]; intros i; cbn; constructor; auto.
Qed.

(** *** Positions print injectively *)

Lemma str_nat_inj (n m : nat) : str_nat n = str_nat m -> n = m.
Proof.
  unfold str_nat. intros H.
  apply (f_equal NilEmpty.uint_of_string) in H.
  rewrite !NilEmpty.usu in H. injection H as H.
  now apply DecimalNat.Unsigned.to_uint_inj.
Qed.

Lemma built_axes_list_axid_In (p : D3Base.t) (fid : string) (axs : list Mpl.Axes.t) :
  forall i x,
    In x (map D3Axes.axid (built_axes_list p fid i axs)) ->
    exists k, i < k /\ x = Ok (fid ++ str_nat k).
Proof.
  induction axs as [|ax axs IH]; intros i x H; [contradiction|].
  cbn in H. destruct H as [H|H].
  - exists (i + 1). split; [lia | now rewrite <- H].
  - apply IH in H. destruct H as [k [Hk ->]]. exists k. split; [lia | reflexivity].
Qed.

Lemma built_axes_list_axid_NoDup (p : D3Base.t) (fid : string) (axs : list Mpl.Axes.t) :
  forall i, NoDup (map D3Axes.axid (built_axes_list p fid i axs)).
Proof.
  induction axs as [|ax axs IH]; intros i; cbn; constructor; [|apply IH].
  intros H. apply built_axes_list_axid_In in H. destruct H as [k [Hk H]].
  unfold D3Axes.axid, built_axes in H. cbn in H. injection H as H.
  apply append_inv_head, str_nat_inj in H. lia.
Qed.

(** *** The constructor: order of the elements, ids, warnings *)

(** C6, as the claim has it, fails: on an axes with one line the element
    list starts with the grid and ends with the title, it is not the lines,
    then the texts, then the grid. *)
Lemma grid_is_first_not_last :
  match D3Figure.__init__ sample_uuid
          (sample_figure
             [sample_axes [sample_line (Some "-") (Some "None")] true true
                [gridline] [] (0, 1)%float]) [] with
  | Ok (f, _) =>
      match D3Figure.axes f with
      | [a] =>
          (exists g l x1 x2 x3,
              D3Axes.elems a
              = [D3Axes.EGrid g; D3Axes.ELine l; D3Axes.EText x1;
                 D3Axes.EText x2; D3Axes.EText x3])
          /\ D3Axes.elems a
             <> (map D3Axes.ELine (D3Axes.lines a)
                 ++ map D3Axes.EText (D3Axes.texts a)
                 ++ map D3Axes.EGrid (D3Axes.grids a))%list
      | _ => False
      end
  | Err _ => False
  end.
Proof.
  rewrite D3Figure_init_eq. cbn. split.
  - repeat eexists.
  - discriminate.
Qed.

(** C9, as the code has it: the id of the k-th axes of a built figure is the
    figure id followed by [k] counted from one, so no two axes of a figure
    share an id; the id of the j-th line of an axes is the axes id followed
    by [j] counted from one; grids and texts carry no id. *)
Theorem scene_graph_ids (uuid4 : string) (fig : Mpl.Figure.t) (w : list string) :
  exists f w',
    D3Figure.__init__ uuid4 fig w = Ok (f, w')
    /\ D3Figure.figid f = Ok (D3Figure.generate_figid uuid4)
    /\ (forall k a,
          nth_error (D3Figure.axes f) k = Some a ->
          D3Axes.axid a = Ok (D3Figure.generate_figid uuid4 ++ str_nat (k + 1))
          /\ (forall j l,
                nth_error (D3Axes.lines a) j = Some l ->
                D3Line2D.axid l
                = Ok (D3Figure.generate_figid uuid4 ++ str_nat (k + 1))
                /\ D3Line2D.lineid l
                   = (D3Figure.generate_figid uuid4 ++ str_nat (k + 1))
                     ++ str_nat (j + 1))
          /\ Forall (fun e => elem_id e = None)
               (map D3Axes.EGrid (D3Axes.grids a)
                ++ map D3Axes.EText (D3Axes.texts a))%list)
    /\ NoDup (map D3Axes.axid (D3Figure.axes f)).
Proof.
  eexists; eexists. split; [apply D3Figure_init_eq|].
  split; [reflexivity|].
  cbn [built_figure D3Figure.axes]. split; [|apply built_axes_list_axid_NoDup].
  intros k a H. apply built_axes_list_nth in H. destruct H as [ax [_ ->]].
  cbn [Nat.add]. split; [reflexivity|]. split.
  - intros j l H. cbn [built_axes D3Axes.lines] in H.
    apply built_lines_nth in H. destruct H as [Hb Hl]. split.
    + unfold D3Line2D.axid. now rewrite Hb.
    + exact Hl.
  - apply Forall_app. split; apply Forall_map, Forall_forall; reflexivity.
Qed.

(** C9, as the claim has it, fails for the elements that are not lines: on
    an axes with one line only that line has an id. *)
Lemma grid_and_texts_have_no_id :
  match D3Figure.__init__ sample_uuid
          (sample_figure
             [sample_axes [sample_line (Some "-") (Some "None")] true true
                [gridline] [] (0, 1)%float]) [] with
  | Ok (f, _) =>
      map (fun a => map elem_id (D3Axes.elems a)) (D3Figure.axes f)
      = [[None; Some "123e4567e89b42d3a45642661417400011"; None; None; None]]
  | Err _ => False
  end.
Proof. rewrite D3Figure_init_eq. reflexivity. Qed.

(** C5, as the code has it: building never fails; each axes gets exactly its
    grid, its lines and its texts, whatever unsupported content it has; and
    for every unsupported kind present on an axes one message naming the
    kind is sent to the warnings channel, in the order images, collections,
    containers, artists, patches, tables, legend, axes after axes. *)
Theorem unsupported_content_warns (uuid4 : string) (fig : Mpl.Figure.t)
    (w : list string) :
  exists f,
    D3Figure.__init__ uuid4 fig w
    = Ok (f, (w ++ flat_map warnings_of (Mpl.Figure.axes fig))%list)
    /\ Forall2
         (fun ax a =>
            List.length (D3Axes.elems a)
            = 1 + List.length (Mpl.Axes.lines ax)
              + (List.length (Mpl.Axes.texts ax) + 3))
         (Mpl.Figure.axes fig) (D3Figure.axes f).
Proof.
  eexists. split; [apply D3Figure_init_eq|].
  cbn [built_figure D3Figure.axes].
  apply built_axes_list_Forall2. intros i ax.
  unfold D3Axes.elems, built_axes, source_texts.
  cbn [D3Axes.grids D3Axes.lines D3Axes.texts].
  rewrite !length_app, !length_map, built_lines_length, length_app.
  cbn [List.length]. lia.
Qed.

(** C5, as the claim has it, fails: with one image on the axes the
    constructor returns the tree alone, and the diagnostic is what the
    warnings channel holds afterwards. *)
Lemma image_diagnostic_is_a_warning :
  match D3Figure.__init__ sample_uuid
          (sample_figure
             [sample_axes [] false false [gridline] [Mpl.artist 0] (0, 1)%float])
          [] with
  | Ok (f, w') =>
      w' = ["images not implemented.  Elements will be ignored"]
      /\ map (fun a => List.length (D3Axes.elems a)) (D3Figure.axes f) = [4]
  | Err _ => False
  end.
Proof. rewrite D3Figure_init_eq. split; reflexivity. Qed.
(** *** Comprehensions that may raise *)

Lemma mapM_Forall2 {A B : Type} (f : A -> result B) (xs : list A) :
  forall ys, mapM f xs = Ok ys <-> Forall2 (fun x y => f x = Ok y) xs ys.
Proof.
  induction xs as [|x xs IH]; intros ys; cbn.
  - split; intros H.
    + injection H as <-. constructor.
    + inversion H. reflexivity.
  - split; intros H.
    + destruct (f x) as [y|e] eqn:Hx; cbn in H; [|discriminate].
      destruct (mapM f xs) as [ys'|e] eqn:Hxs; cbn in H; [|discriminate].
      injection H as <-. constructor; [exact Hx | now apply IH].
    + inversion H as [|x' y xs' ys' Hx Hxs]; subst.
      rewrite Hx. cbn. apply IH in Hxs. now rewrite Hxs.
Qed.

Lemma mapM_total {A B : Type} (f : A -> result B) (xs : list A) :
  Forall (fun x => exists y, f x = Ok y) xs -> exists ys, mapM f xs = Ok ys.
Proof.
  induction 1 as [|x xs [y Hy] _ [ys Hys]]; cbn.
  - now exists [].
  - exists (y :: ys). now rewrite Hy, Hys.
Qed.

Lemma mapM_raises {A B : Type} (f : A -> result B) (e : exn) (xs : list A) :
  Forall (fun x => is_ok (f x) = true \/ f x = Err e) xs ->
  Exists (fun x => f x = Err e) xs ->
  mapM f xs = Err e.
Proof.
  induction 1 as [|x xs Hx _ IH]; intros Hex; [inversion Hex|].
  cbn. destruct Hx as [Hx|Hx].
  - destruct (f x) as [y|e'] eqn:Hfx; [|discriminate]. cbn.
    inversion Hex as [? ? Hh|? ? Ht]; subst; [congruence|].
    now rewrite (IH Ht).
  - now rewrite Hx.
Qed.

Section WithExternals.

Context {E : Externals}.

(** *** The elements *)

Lemma D3Grid_zoom_eq (g : D3Grid.t) (a : string) :
  D3Grid.axid g = Ok a ->
  D3Grid.zoom g
  = Ok ((if Mpl.Axis._gridOnMajor (Mpl.Axes.xaxis (D3Grid.ax g))
         then D3Grid.XZOOM_text a else EmptyString)
        ++ (if Mpl.Axis._gridOnMajor (Mpl.Axes.yaxis (D3Grid.ax g))
            then D3Grid.YZOOM_text a else EmptyString)).
Proof.
  intros H. unfold D3Grid.zoom. rewrite H.
  destruct (Mpl.Axis._gridOnMajor (Mpl.Axes.xaxis (D3Grid.ax g))),
    (Mpl.Axis._gridOnMajor (Mpl.Axes.yaxis (D3Grid.ax g)));
    cbn [rbind]; rewrite ?format_XZOOM, ?format_YZOOM; cbn [rbind append];
    rewrite ?append_nil_r; reflexivity.
Qed.

Lemma D3Grid_html_eq (g : D3Grid.t) (a : string) :
  D3Grid.axid g = Ok a ->
  D3Grid.html g
  = Ok ((if Mpl.Axis._gridOnMajor (Mpl.Axes.xaxis (D3Grid.ax g))
         then D3Grid.XGRID_TEMPLATE_text a else EmptyString)
        ++ (if Mpl.Axis._gridOnMajor (Mpl.Axes.yaxis (D3Grid.ax g))
            then D3Grid.YGRID_TEMPLATE_text a else EmptyString)).
Proof.
  intros H. unfold D3Grid.html. rewrite H.
  destruct (Mpl.Axis._gridOnMajor (Mpl.Axes.xaxis (D3Grid.ax g))),
    (Mpl.Axis._gridOnMajor (Mpl.Axes.yaxis (D3Grid.ax g)));
    cbn [rbind]; rewrite ?format_XGRID, ?format_YGRID; cbn [rbind append];
    rewrite ?append_nil_r; reflexivity.
Qed.

Lemma D3Grid_style_first (g : D3Grid.t) (f : string) (g0 : Mpl.Line2D.t)
    (rest : list Mpl.Line2D.t) :
  D3Grid.figid g = Ok f ->
  gridlines_of (D3Grid.ax g) = g0 :: rest ->
  D3Grid.style g
  = Ok (D3Grid.STYLE_text f (color_to_hex (Mpl.Line2D.get_color g0))
          (get_dasharray g0) (str_opt_float (Mpl.Line2D.get_alpha g0))).
Proof.
  intros Hf Hg. unfold D3Grid.style. fold (gridlines_of (D3Grid.ax g)).
  rewrite Hg, Hf. cbn [getitem nth_error rbind].
  apply format_grid_STYLE.
Qed.

Lemma D3Grid_style_empty (g : D3Grid.t) :
  gridlines_of (D3Grid.ax g) = [] -> D3Grid.style g = Err IndexError.
Proof.
  intros Hg. unfold D3Grid.style. fold (gridlines_of (D3Grid.ax g)).
  now rewrite Hg.
Qed.

Lemma D3Line2D_zoom_eq (l : D3Line2D.t) (a : string) :
  D3Line2D.axid l = Ok a ->
  D3Line2D.zoom l
  = Ok ((if D3Line2D.has_points l
         then D3Line2D.POINTS_ZOOM_text a (D3Line2D.lineid l) else EmptyString)
        ++ (if D3Line2D.has_line l
            then D3Line2D.LINE_ZOOM_text a (D3Line2D.lineid l) else EmptyString)).
Proof.
  intros H. unfold D3Line2D.zoom. rewrite H.
  destruct (D3Line2D.has_points l), (D3Line2D.has_line l);
    cbn [rbind]; rewrite ?format_POINTS_ZOOM, ?format_LINE_ZOOM;
    cbn [rbind append]; rewrite ?append_nil_r; reflexivity.
Qed.

Lemma D3Line2D_html_eq (l : D3Line2D.t) (a : string) :
  D3Line2D.axid l = Ok a ->
  D3Line2D.html l
  = Ok (D3Line2D.DATA_TEMPLATE_text (D3Line2D.lineid l)
          (str_xydata (Mpl.Line2D.get_xydata (D3Line2D.line l)))
        ++ (if D3Line2D.has_points l
            then D3Line2D.POINTS_TEMPLATE_text (D3Line2D.lineid l) a
                   (get_d3_shape_for_marker (Mpl.Line2D.get_marker (D3Line2D.line l)))
                   (repr_float (10 * Mpl.Line2D.get_markersize (D3Line2D.line l))%float)
            else EmptyString)
        ++ (if D3Line2D.has_line l
            then D3Line2D.LINE_TEMPLATE_text (D3Line2D.lineid l) a
            else EmptyString)).
Proof.
  intros H. unfold D3Line2D.html. rewrite H, format_DATA.
  destruct (D3Line2D.has_points l), (D3Line2D.has_line l);
    cbn [rbind]; rewrite ?format_POINTS, ?format_LINE; cbn [rbind];
    rewrite ?append_assoc, ?append_nil_r; reflexivity.
Qed.

Lemma D3Line2D_style_total (l : D3Line2D.t) (f : string) :
  D3Line2D.figid l = Ok f -> exists s, D3Line2D.style l = Ok s.
Proof.
  intros H. unfold D3Line2D.style. rewrite H. cbn [rbind].
  rewrite format_line_STYLE. eexists. reflexivity.
Qed.

Lemma D3Text_html_total (x : D3Text.t) : exists s, D3Text.html x = Ok s.
Proof.
  unfold D3Text.html.
  destruct (String.eqb (Mpl.Text.get_text (D3Text.text x)) EmptyString).
  - now exists EmptyString.
  - destruct (get_text_coordinates (D3Text.text x)) as [cx cy].
    rewrite format_TEXT. eexists. reflexivity.
Qed.

Lemma elem_html_total (e : D3Axes.elem) (a : string) :
  D3Base.axid (elem_base e) = Ok a -> exists s, D3Axes.elem_html e = Ok s.
Proof.
  destruct e as [g|l|x]; cbn [elem_base D3Axes.elem_html]; intros H.
  - rewrite (D3Grid_html_eq g a H). eexists. reflexivity.
  - rewrite (D3Line2D_html_eq l a H). eexists. reflexivity.
  - apply D3Text_html_total.
Qed.

Lemma elem_zoom_total (e : D3Axes.elem) (a : string) :
  D3Base.axid (elem_base e) = Ok a -> exists s, D3Axes.elem_zoom e = Ok s.
Proof.
  destruct e as [g|l|x]; cbn [elem_base D3Axes.elem_zoom]; intros H.
  - rewrite (D3Grid_zoom_eq g a H). eexists. reflexivity.
  - rewrite (D3Line2D_zoom_eq l a H). eexists. reflexivity.
  - now exists EmptyString.
Qed.

(** *** The axes *)

Lemma D3Axes_html_eq (a : D3Axes.t) (id : string) (es zs : list string) :
  D3Axes.axid a = Ok id ->
  mapM D3Axes.elem_html (D3Axes.elems a) = Ok es ->
  mapM D3Axes.elem_zoom (D3Axes.elems a) = Ok zs ->
  exists b0 b1 b2 b3,
    D3Axes.html a
    = Ok (D3Axes.AXES_TEMPLATE_text id b0 b1 b2 b3
            (repr_float (fst (Mpl.Axes.get_xlim (D3Axes.ax a))))
            (repr_float (snd (Mpl.Axes.get_xlim (D3Axes.ax a))))
            (repr_float (fst (Mpl.Axes.get_ylim (D3Axes.ax a))))
            (repr_float (snd (Mpl.Axes.get_ylim (D3Axes.ax a))))
            "#FCFCFC" (join nl es) (join nl zs)).
Proof.
  intros Ha He Hz. unfold D3Axes.html. rewrite He, Hz, Ha. cbn [rbind].
  unfold D3Axes.str_pair, D3Grid.str_bounds.
  destruct (Mpl.Axes.bounds (D3Axes.ax a)) as [[[b0 b1] b2] b3].
  rewrite format_AXES. do 4 eexists. reflexivity.
Qed.

Lemma built_elems_base (p : D3Base.t) (fid : string) (i : nat) (ax : Mpl.Axes.t) :
  Forall (fun e => elem_base e = child_base (axes_base p (fid ++ str_nat i)))
    (D3Axes.elems (built_axes p fid i ax)).
Proof.
  unfold D3Axes.elems, built_axes.
  cbn [D3Axes.grids D3Axes.lines D3Axes.texts].
  repeat (apply Forall_app; split); apply Forall_map.
  - repeat constructor.
  - apply Forall_forall. intros l Hl. apply In_nth_error in Hl.
    destruct Hl as [k Hk]. now apply built_lines_nth in Hk.
  - apply Forall_map, Forall_forall. reflexivity.
Qed.

Lemma built_elems_axid (p : D3Base.t) (fid : string) (i : nat) (ax : Mpl.Axes.t) :
  Forall (fun e => D3Base.axid (elem_base e) = Ok (fid ++ str_nat i))
    (D3Axes.elems (built_axes p fid i ax)).
Proof.
  eapply Forall_impl; [|apply built_elems_base].
  intros e He. now rewrite He.
Qed.

Lemma built_axes_html (p : D3Base.t) (fid : string) (i : nat) (ax : Mpl.Axes.t) :
  exists es zs b0 b1 b2 b3,
    Forall2 (fun e s => D3Axes.elem_html e = Ok s)
      (D3Axes.elems (built_axes p fid i ax)) es
    /\ Forall2 (fun e z => D3Axes.elem_zoom e = Ok z)
         (D3Axes.elems (built_axes p fid i ax)) zs
    /\ D3Axes.html (built_axes p fid i ax)
       = Ok (D3Axes.AXES_TEMPLATE_text (fid ++ str_nat i) b0 b1 b2 b3
               (repr_float (fst (Mpl.Axes.get_xlim ax)))
               (repr_float (snd (Mpl.Axes.get_xlim ax)))
               (repr_float (fst (Mpl.Axes.get_ylim ax)))
               (repr_float (snd (Mpl.Axes.get_ylim ax)))
               "#FCFCFC" (join nl es) (join nl zs)).
Proof.
  destruct (mapM_total D3Axes.elem_html (D3Axes.elems (built_axes p fid i ax)))
    as [es Hes].
  { eapply Forall_impl; [|apply built_elems_axid].
    intros e He. exact (elem_html_total e _ He). }
  destruct (mapM_total D3Axes.elem_zoom (D3Axes.elems (built_axes p fid i ax)))
    as [zs Hzs].
  { eapply Forall_impl; [|apply built_elems_axid].
    intros e He. exact (elem_zoom_total e _ He). }
  destruct (D3Axes_html_eq (built_axes p fid i ax) (fid ++ str_nat i) es zs
              eq_refl Hes Hzs) as [b0 [b1 [b2 [b3 H]]]].
  exists es, zs, b0, b1, b2, b3.
  split; [now apply mapM_Forall2|]. split; [now apply mapM_Forall2|]. exact H.
Qed.


(** *** The zoom handler *)

Lemma AXES_TEMPLATE_text_handler
    (id b0 b1 b2 b3 x0 x1 y0 y1 bg els zs : string) :
  D3Axes.AXES_TEMPLATE_text id b0 b1 b2 b3 x0 x1 y0 y1 bg els zs
  = (D3Axes.sizes_text id b2 b3 ++ D3Axes.scales_text id x0 x1 y0 y1
     ++ D3Axes.frame_text id b0 b1 b3 bg)
    ++ els ++ D3Axes.zoomed_open_text id ++ D3Axes.xaxis_redraw_text id
    ++ D3Axes.yaxis_redraw_text id ++ D3Axes.zoomed_body_text zs.
Proof.
  unfold D3Axes.AXES_TEMPLATE_text, D3Axes.zoomed_text.
  now rewrite !append_assoc.
Qed.

(** C2: in the text of every axes of a built figure, after the sizes, the
    scales and the frame (which registers [zoomed] as the handler of zoom
    events), the elements are drawn by the html of the grid, the lines and
    the texts, in this order, and the zoom handler that follows consists of
    the redraw of the x axis, the redraw of the y axis, and then the updates
    of the same elements in the same order. *)
Theorem zoom_handler_order (uuid4 : string) (fig : Mpl.Figure.t) (w : list string) :
  exists f w',
    D3Figure.__init__ uuid4 fig w = Ok (f, w')
    /\ Forall
         (fun a =>
            exists id es zs b0 b1 b2 b3,
              D3Axes.axid a = Ok id
              /\ Forall2 (fun e s => D3Axes.elem_html e = Ok s) (D3Axes.elems a) es
              /\ Forall2 (fun e z => D3Axes.elem_zoom e = Ok z) (D3Axes.elems a) zs
              /\ D3Axes.html a
                 = Ok ((D3Axes.sizes_text id b2 b3
                        ++ D3Axes.scales_text id
                             (repr_float (fst (Mpl.Axes.get_xlim (D3Axes.ax a))))
                             (repr_float (snd (Mpl.Axes.get_xlim (D3Axes.ax a))))
                             (repr_float (fst (Mpl.Axes.get_ylim (D3Axes.ax a))))
                             (repr_float (snd (Mpl.Axes.get_ylim (D3Axes.ax a))))
                        ++ D3Axes.frame_text id b0 b1 b3 "#FCFCFC")
                       ++ join nl es
                       ++ D3Axes.zoomed_open_text id
                       ++ D3Axes.xaxis_redraw_text id
                       ++ D3Axes.yaxis_redraw_text id
                       ++ D3Axes.zoomed_body_text (join nl zs)))
         (D3Figure.axes f).
Proof.
  eexists; eexists. split; [apply D3Figure_init_eq|].
  cbn [built_figure D3Figure.axes].
  apply Forall_forall. intros a Ha. apply In_nth_error in Ha.
  destruct Ha as [k Hk]. apply built_axes_list_nth in Hk.
  destruct Hk as [ax [_ ->]].
  destruct (built_axes_html (fig_base (D3Figure.generate_figid uuid4))
              (D3Figure.generate_figid uuid4) (0 + k + 1) ax)
    as [es [zs [b0 [b1 [b2 [b3 [Hes [Hzs H]]]]]]]].
  eexists; exists es, zs, b0, b1, b2, b3.
  split; [reflexivity|]. split; [exact Hes|]. split; [exact Hzs|].
  rewrite H. apply f_equal, AXES_TEMPLATE_text_handler.
Qed.

(** *** Order of the elements *)

(** C6, as the code has it: every axes of a built figure holds the lines of
    its matplotlib axes in source order, one text per annotation followed
    by the x label, the y label and the title (whether empty or not), and
    exactly one grid. The list that drawing and zooming run through starts
    with the grid, continues with the lines and ends with the texts: the
    html of the axes draws the elements in this order, and its zoom handler
    updates them in this order. *)
Theorem axes_elements_order (uuid4 : string) (fig : Mpl.Figure.t) (w : list string) :
  exists f w',
    D3Figure.__init__ uuid4 fig w = Ok (f, w')
    /\ Forall2
         (fun ax a =>
            exists g,
              D3Axes.grids a = [g]
              /\ D3Grid.ax g = ax
              /\ map D3Line2D.line (D3Axes.lines a) = Mpl.Axes.lines ax
              /\ map D3Text.text (D3Axes.texts a)
                 = (Mpl.Axes.texts ax
                    ++ [Mpl.Axis.label (Mpl.Axes.xaxis ax);
                        Mpl.Axis.label (Mpl.Axes.yaxis ax);
                        Mpl.Axes.title ax])%list
              /\ D3Axes.elems a
                 = (D3Axes.EGrid g :: map D3Axes.ELine (D3Axes.lines a)
                    ++ map D3Axes.EText (D3Axes.texts a))%list
              /\ exists es zs pre mid post,
                   Forall2 (fun e s => D3Axes.elem_html e = Ok s) (D3Axes.elems a) es
                   /\ Forall2 (fun e z => D3Axes.elem_zoom e = Ok z) (D3Axes.elems a) zs
                   /\ D3Axes.html a
                      = Ok (pre ++ join nl es ++ mid ++ join nl zs ++ post))
         (Mpl.Figure.axes fig) (D3Figure.axes f).
Proof.
  eexists; eexists. split; [apply D3Figure_init_eq|].
  cbn [built_figure D3Figure.axes].
  apply built_axes_list_Forall2. intros i ax.
  destruct (built_axes_html (fig_base (D3Figure.generate_figid uuid4))
              (D3Figure.generate_figid uuid4) i ax)
    as [es [zs [b0 [b1 [b2 [b3 [Hes [Hzs H]]]]]]]].
  eexists. split; [reflexivity|]. split; [reflexivity|].
  split; [apply built_lines_line|].
  split.
  { cbn [built_axes D3Axes.texts]. rewrite map_map. apply map_id. }
  split; [reflexivity|].
  exists es, zs. do 3 eexists.
  split; [exact Hes|]. split; [exact Hzs|].
  rewrite H, AXES_TEMPLATE_text_handler. unfold D3Axes.zoomed_body_text.
  rewrite <- (append_assoc (D3Axes.yaxis_redraw_text _)).
  rewrite <- (append_assoc (D3Axes.xaxis_redraw_text _)).
  rewrite <- (append_assoc (D3Axes.zoomed_open_text _)).
  reflexivity.
Qed.

(** *** The scales *)

Lemma AXES_TEMPLATE_text_scales
    (id b0 b1 b2 b3 x0 x1 y0 y1 bg els zs : string) :
  D3Axes.AXES_TEMPLATE_text id b0 b1 b2 b3 x0 x1 y0 y1 bg els zs
  = D3Axes.sizes_text id b2 b3 ++ D3Axes.scales_text id x0 x1 y0 y1
    ++ (D3Axes.frame_text id b0 b1 b3 bg ++ els ++ D3Axes.zoomed_text id zs).
Proof. reflexivity. Qed.

(** C1, as the code has it: building succeeds whatever the domains are, and
    the text of every axes declares its two linear scales with the ends of
    the x and y domains written as they are, equal or not. *)
Theorem domain_is_emitted_unchecked (uuid4 : string) (fig : Mpl.Figure.t)
    (w : list string) :
  exists f w',
    D3Figure.__init__ uuid4 fig w = Ok (f, w')
    /\ Forall2
         (fun ax a =>
            exists id pre post,
              D3Axes.axid a = Ok id
              /\ D3Axes.html a
                 = Ok (pre
                       ++ D3Axes.scales_text id
                            (repr_float (fst (Mpl.Axes.get_xlim ax)))
                            (repr_float (snd (Mpl.Axes.get_xlim ax)))
                            (repr_float (fst (Mpl.Axes.get_ylim ax)))
                            (repr_float (snd (Mpl.Axes.get_ylim ax)))
                       ++ post))
         (Mpl.Figure.axes fig) (D3Figure.axes f).
Proof.
  eexists; eexists. split; [apply D3Figure_init_eq|].
  cbn [built_figure D3Figure.axes].
  apply built_axes_list_Forall2. intros i ax.
  destruct (built_axes_html (fig_base (D3Figure.generate_figid uuid4))
              (D3Figure.generate_figid uuid4) i ax)
    as [es [zs [b0 [b1 [b2 [b3 [_ [_ H]]]]]]]].
  do 3 eexists. split; [reflexivity|].
  rewrite H, AXES_TEMPLATE_text_scales. reflexivity.
Qed.

(** *** Style sheets *)

Lemma built_lines_style_total (self : D3Base.t) (aid f : string)
    (ls : list Mpl.Line2D.t) :
  D3Base.figid self = Ok f ->
  forall j, exists ss, mapM D3Line2D.style (built_lines self aid j ls) = Ok ss.
Proof.
  intros Hf j. apply mapM_total, Forall_forall. intros l Hl.
  apply In_nth_error in Hl. destruct Hl as [k Hk].
  apply built_lines_nth in Hk. destruct Hk as [Hb _].
  apply (D3Line2D_style_total l f). unfold D3Line2D.figid.
  now rewrite Hb, figid_child.
Qed.

Lemma texts_style_total (xs : list D3Text.t) :
  exists ss, mapM D3Text.style xs = Ok ss.
Proof.
  apply mapM_total, Forall_forall. intros x _. now exists EmptyString.
Qed.

Lemma fontsize_total (ticks : list Mpl.Text.t) :
  exists s,
    (if Nat.eqb (List.length ticks) 0 then Ok "11"
     else (t0 <- getitem ticks 0 ;; Ok (repr_float (Mpl.Text.get_size t0)))%py)
    = Ok s.
Proof. destruct ticks; eexists; reflexivity. Qed.

Lemma built_axes_style_first (p : D3Base.t) (fid : string) (i : nat)
    (ax : Mpl.Axes.t) (g0 : Mpl.Line2D.t) (rest : list Mpl.Line2D.t) :
  D3Base.figid p = Ok fid ->
  gridlines_of ax = g0 :: rest ->
  exists s, D3Axes.style (built_axes p fid i ax) = Ok s.
Proof.
  intros Hf Hg. unfold D3Axes.style.
  destruct (fontsize_total
              (Mpl.Axis.get_ticklabels (Mpl.Axes.xaxis ax)
               ++ Mpl.Axis.get_ticklabels (Mpl.Axes.yaxis ax))%list) as [fs Hfs].
  cbn [built_axes D3Axes.ax D3Axes.grids D3Axes.lines D3Axes.texts].
  rewrite Hfs. cbn [rbind].
  unfold D3Axes.axid, D3Axes.figid.
  change (D3Axes.base (built_axes p fid i ax)) with (axes_base p (fid ++ str_nat i)).
  rewrite axid_axes_base, figid_axes_base, Hf. cbn [rbind].
  rewrite format_axes_STYLE. cbn [rbind mapM].
  rewrite (D3Grid_style_first _ fid g0 rest); [|exact Hf|exact Hg].
  cbn [rbind].
  destruct (built_lines_style_total (axes_base p (fid ++ str_nat i))
              (fid ++ str_nat i) fid (Mpl.Axes.lines ax) Hf 0) as [ls Hls].
  rewrite Hls. cbn [rbind].
  destruct (texts_style_total
              (map (fun x => D3Text.mk (child_base (axes_base p (fid ++ str_nat i))) ax x)
                 (source_texts ax))) as [ts Hts].
  rewrite Hts. eexists. reflexivity.
Qed.

Lemma built_axes_style_empty (p : D3Base.t) (fid : string) (i : nat)
    (ax : Mpl.Axes.t) :
  D3Base.figid p = Ok fid ->
  gridlines_of ax = [] ->
  D3Axes.style (built_axes p fid i ax) = Err IndexError.
Proof.
  intros Hf Hg. unfold D3Axes.style.
  destruct (fontsize_total
              (Mpl.Axis.get_ticklabels (Mpl.Axes.xaxis ax)
               ++ Mpl.Axis.get_ticklabels (Mpl.Axes.yaxis ax))%list) as [fs Hfs].
  cbn [built_axes D3Axes.ax D3Axes.grids D3Axes.lines D3Axes.texts].
  rewrite Hfs. cbn [rbind].
  unfold D3Axes.axid, D3Axes.figid.
  change (D3Axes.base (built_axes p fid i ax)) with (axes_base p (fid ++ str_nat i)).
  rewrite axid_axes_base, figid_axes_base, Hf. cbn [rbind].
  rewrite format_axes_STYLE. cbn [rbind mapM].
  now rewrite D3Grid_style_empty.
Qed.

Lemma built_axes_list_Forall (P : D3Axes.t -> Prop) (p : D3Base.t)
    (fid : string) (axs : list Mpl.Axes.t) :
  (forall i ax, In ax axs -> P (built_axes p fid i ax)) ->
  forall i, Forall P (built_axes_list p fid i axs).
Proof.
  induction axs as [|x axs IH]; intros H i; cbn; constructor.
  - apply H. now left.
  - apply IH. intros j ax Hax. apply H. now right.
Qed.

Lemma built_axes_list_Exists (Q : Mpl.Axes.t -> Prop) (P : D3Axes.t -> Prop)
    (p : D3Base.t) (fid : string) (axs : list Mpl.Axes.t) :
  (forall i ax, Q ax -> P (built_axes p fid i ax)) ->
  Exists Q axs ->
  forall i, Exists P (built_axes_list p fid i axs).
Proof.
  intros H. induction 1 as [x axs Hx|x axs _ IH]; intros i; cbn.
  - left. now apply H.
  - right. apply IH.
Qed.

Lemma built_figure_html_axes (uuid4 : string) (fig : Mpl.Figure.t) :
  exists hs, mapM D3Axes.html (D3Figure.axes (built_figure uuid4 fig)) = Ok hs.
Proof.
  apply mapM_total. cbn [built_figure D3Figure.axes].
  apply built_axes_list_Forall. intros i ax _.
  destruct (built_axes_html (fig_base (D3Figure.generate_figid uuid4))
              (D3Figure.generate_figid uuid4) i ax)
    as [es [zs [b0 [b1 [b2 [b3 [_ [_ H]]]]]]]].
  rewrite H. eexists. reflexivity.
Qed.

(** C10: the style of a grid reads element 0 of the x gridlines followed by
    the y gridlines. In a built figure, for an axes with at least one
    gridline it succeeds with the colour, dash pattern and opacity of that
    first gridline; for an axes with none it raises IndexError, and so do
    the style of that axes and the style and the html of the whole figure.
    With at least one gridline on every axes the style of the figure
    succeeds. *)
Theorem grid_style_reads_first_gridline (uuid4 : string) (fig : Mpl.Figure.t)
    (w : list string) :
  exists f w',
    D3Figure.__init__ uuid4 fig w = Ok (f, w')
    /\ Forall2
         (fun ax a =>
            exists g,
              D3Axes.grids a = [g]
              /\ match (Mpl.Axis.get_gridlines (Mpl.Axes.xaxis ax)
                        ++ Mpl.Axis.get_gridlines (Mpl.Axes.yaxis ax))%list with
                 | g0 :: _ =>
                     D3Grid.style g
                     = Ok (D3Grid.STYLE_text (D3Figure.generate_figid uuid4)
                             (color_to_hex (Mpl.Line2D.get_color g0))
                             (get_dasharray g0)
                             (str_opt_float (Mpl.Line2D.get_alpha g0)))
                 | [] =>
                     D3Grid.style g = Err IndexError
                     /\ D3Axes.style a = Err IndexError
                 end)
         (Mpl.Figure.axes fig) (D3Figure.axes f)
    /\ (Exists (fun ax => gridlines_of ax = []) (Mpl.Figure.axes fig) ->
        D3Figure.style f = Err IndexError /\ D3Figure.html f = Err IndexError)
    /\ (Forall (fun ax => gridlines_of ax <> []) (Mpl.Figure.axes fig) ->
        is_ok (D3Figure.style f) = true).
Proof.
  eexists; eexists. split; [apply D3Figure_init_eq|].
  set (fid := D3Figure.generate_figid uuid4).
  assert (Hf : D3Base.figid (fig_base fid) = Ok fid) by reflexivity.
  split; [|split].
  - cbn [built_figure D3Figure.axes]. fold fid.
    apply built_axes_list_Forall2. intros i ax.
    eexists. split; [reflexivity|].
    fold (gridlines_of ax). destruct (gridlines_of ax) as [|g0 rest] eqn:Hg.
    + split; [now apply D3Grid_style_empty|].
      now apply built_axes_style_empty.
    + now apply (D3Grid_style_first _ fid g0 rest).
  - intros Hex.
    assert (Hs : D3Figure.style (built_figure uuid4 fig) = Err IndexError).
    { unfold D3Figure.style. cbn [built_figure D3Figure.axes]. fold fid.
      rewrite (mapM_raises D3Axes.style IndexError); [reflexivity| |].
      - apply built_axes_list_Forall. intros i ax _.
        destruct (gridlines_of ax) as [|g0 rest] eqn:Hg.
        + right. now apply built_axes_style_empty.
        + left. destruct (built_axes_style_first (fig_base fid) fid i ax g0 rest Hf Hg)
            as [s Hs]. now rewrite Hs.
      - apply (built_axes_list_Exists (fun ax => gridlines_of ax = [])); [|exact Hex].
        intros i ax Hg. now apply built_axes_style_empty. }
    split; [exact Hs|].
    unfold D3Figure.html.
    destruct (built_figure_html_axes uuid4 fig) as [hs Hhs].
    rewrite Hhs. cbn [rbind].
    change (D3Figure.figid (built_figure uuid4 fig)) with (Ok (A := string) fid).
    cbn [rbind]. rewrite format_FIGURE. cbn [rbind]. now rewrite Hs.
  - intros Hall. unfold D3Figure.style.
    destruct (mapM_total D3Axes.style (D3Figure.axes (built_figure uuid4 fig)))
      as [ss Hss].
    { cbn [built_figure D3Figure.axes]. fold fid.
      apply built_axes_list_Forall. intros i ax Hax.
      rewrite Forall_forall in Hall. specialize (Hall ax Hax).
      destruct (gridlines_of ax) as [|g0 rest] eqn:Hg; [contradiction|].
      exact (built_axes_style_first (fig_base fid) fid i ax g0 rest Hf Hg). }
    rewrite Hss. cbn [rbind]. now rewrite format_figure_STYLE.
Qed.

(** *** Ids are made of id characters *)

Lemma idstring_app (a b : string) : idstring (a ++ b) = idstring a && idstring b.
Proof.
  induction a as [|c a IH]; cbn; [reflexivity|].
  now rewrite IH, Bool.andb_assoc.
Qed.

Lemma idstring_str_nat (n : nat) : idstring (str_nat n) = true.
Proof.
  unfold str_nat. generalize (Nat.to_uint n). intros d.
  induction d; cbn; auto.
Qed.

Lemma idstring_generate_figid (uuid4 : string) :
  uuid_chars uuid4 = true -> idstring (D3Figure.generate_figid uuid4) = true.
Proof.
  unfold D3Figure.generate_figid.
  induction uuid4 as [|c s IH]; cbn [uuid_chars remove_char]; intros H; [reflexivity|].
  apply Bool.andb_true_iff in H. destruct H as [Hc Hs].
  destruct (Ascii.eqb c "-") eqn:Hd; [now apply IH|].
  rewrite Bool.orb_false_r in Hc. cbn [idstring]. now rewrite Hc, IH.
Qed.

(** *** Reading past an id *)

Lemma idchar_neq (c d : ascii) :
  is_idchar c = true -> is_idchar d = false -> Ascii.eqb d c = false.
Proof.
  intros Hc Hd. destruct (Ascii.eqb_spec d c) as [->|_]; [congruence | reflexivity].
Qed.

Lemma occurs_skip_id (d : ascii) (n id rest : string) :
  is_idchar d = false ->
  idstring id = true ->
  occurs (String d n) (id ++ rest) = occurs (String d n) rest.
Proof.
  intros Hd. induction id as [|c id IH]; intros H; [reflexivity|].
  cbn [idstring] in H. apply Bool.andb_true_iff in H. destruct H as [Hc Hid].
  cbn [append occurs drop_prefix]. rewrite (idchar_neq c d Hc Hd). now apply IH.
Qed.

Lemma attr_names_skip_id (id rest : string) :
  idstring id = true -> attr_names (id ++ rest) = attr_names rest.
Proof.
  induction id as [|c id IH]; intros H; [reflexivity|].
  cbn [idstring] in H. apply Bool.andb_true_iff in H. destruct H as [Hc Hid].
  cbn [append attr_names drop_prefix].
  rewrite (idchar_neq c "." Hc eq_refl). now apply IH.
Qed.

Ltac scan :=
  repeat first
    [ rewrite attr_names_skip_id by assumption
    | rewrite occurs_skip_id by first [assumption | reflexivity]
    | progress cbn ].

(** *** What the initial draw of a grid and the updates emit *)

(** C8: the initial draw of a grid is the x grid template if the x major
    grid is on, followed by the y grid template if the y major grid is on;
    the group of class [x grid] and the ticks of a second x axis are in it
    exactly when the x flag is set, those of [y grid] and of a second y
    axis exactly when the y flag is set. *)
Theorem grid_draws_enabled_axes_only (g : D3Grid.t) (a : string) :
  D3Grid.axid g = Ok a ->
  idstring a = true ->
  exists out,
    D3Grid.html g = Ok out
    /\ out
       = (if Mpl.Axis._gridOnMajor (Mpl.Axes.xaxis (D3Grid.ax g))
          then D3Grid.XGRID_TEMPLATE_text a else EmptyString)
         ++ (if Mpl.Axis._gridOnMajor (Mpl.Axes.yaxis (D3Grid.ax g))
             then D3Grid.YGRID_TEMPLATE_text a else EmptyString)
    /\ occurs "x grid" out = Mpl.Axis._gridOnMajor (Mpl.Axes.xaxis (D3Grid.ax g))
    /\ occurs "xAxis" out = Mpl.Axis._gridOnMajor (Mpl.Axes.xaxis (D3Grid.ax g))
    /\ occurs "y grid" out = Mpl.Axis._gridOnMajor (Mpl.Axes.yaxis (D3Grid.ax g))
    /\ occurs "yAxis" out = Mpl.Axis._gridOnMajor (Mpl.Axes.yaxis (D3Grid.ax g)).
Proof.
  intros Ha Hid. eexists. split; [apply (D3Grid_html_eq g a Ha)|].
  split; [reflexivity|].
  unfold D3Grid.XGRID_TEMPLATE_text, D3Grid.YGRID_TEMPLATE_text.
  destruct (Mpl.Axis._gridOnMajor (Mpl.Axes.xaxis (D3Grid.ax g))),
    (Mpl.Axis._gridOnMajor (Mpl.Axes.yaxis (D3Grid.ax g)));
    rewrite ?append_assoc; repeat split; scan; reflexivity.
Qed.

(** The hypotheses on the ids made above and below hold throughout a
    figure built from a uuid. *)
Lemma built_elems_ids (uuid4 : string) (fig : Mpl.Figure.t) :
  uuid_chars uuid4 = true ->
  Forall
    (fun a =>
       Forall
         (fun e =>
            exists id,
              D3Base.axid (elem_base e) = Ok id
              /\ idstring id = true
              /\ (forall i, elem_id e = Some i -> idstring i = true))
         (D3Axes.elems a))
    (D3Figure.axes (built_figure uuid4 fig)).
Proof.
  intros Hu. cbn [built_figure D3Figure.axes].
  apply built_axes_list_Forall. intros i ax _.
  assert (Hid : idstring (D3Figure.generate_figid uuid4 ++ str_nat i) = true).
  { now rewrite idstring_app, idstring_generate_figid, idstring_str_nat. }
  unfold D3Axes.elems, built_axes.
  cbn [D3Axes.grids D3Axes.lines D3Axes.texts].
  repeat (apply Forall_app; split); apply Forall_map.
  - repeat constructor. eexists. split; [reflexivity|]. split; [exact Hid|].
    discriminate.
  - apply Forall_forall. intros l Hl. apply In_nth_error in Hl.
    destruct Hl as [k Hk]. apply built_lines_nth in Hk. destruct Hk as [Hb Hlid].
    eexists. cbn [elem_base elem_id]. rewrite Hb. split; [reflexivity|].
    split; [exact Hid|]. intros j Hj. injection Hj as <-.
    now rewrite Hlid, idstring_app, Hid, idstring_str_nat.
  - apply Forall_map, Forall_forall. intros x _.
    eexists. split; [reflexivity|]. split; [exact Hid|]. discriminate.
Qed.

End WithExternals.

(** *** The statements on sample inputs *)

Lemma grid_draws_enabled_axes_only_witness :
  D3Grid.axid sample_grid = Ok "ab1"
  /\ idstring "ab1" = true
  /\ exists out,
       D3Grid.html (E := demo) sample_grid = Ok out
       /\ out = EmptyString ++ D3Grid.YGRID_TEMPLATE_text "ab1"
       /\ occurs "x grid" out = false
       /\ occurs "xAxis" out = false
       /\ occurs "y grid" out = true
       /\ occurs "yAxis" out = true.
Proof.
  split; [reflexivity|]. split; [reflexivity|].
  exact (@grid_draws_enabled_axes_only demo sample_grid "ab1" eq_refl eq_refl).
Defined.

(** C1, as the claim has it, fails: an axes whose x domain is the single
    point 1 is built and rendered without any error, and its text declares
    the scale over the domain [[1.0, 1.0]]. *)
Lemma degenerate_domain_is_built_and_rendered :
  match D3Figure.__init__ sample_uuid
          (sample_figure [sample_axes [] false false [gridline] [] (1, 1)%float])
          [] with
  | Ok (f, _) =>
      match D3Figure.html (E := demo) f with
      | Ok text => occurs ".domain([1.0, 1.0])" text = true
      | Err _ => False
      end
  | Err _ => False
  end.
Proof. vm_compute. reflexivity. Qed.

(** The scenario of one solid line over the unit square: a stroke and no
    points, three points in the data, one path drawn. *)
Example solid_line_scenario :
  match D3Line2D.__init__ sample_axes_base (sample_line (Some "-") (Some "None"))
          (Some 1) with
  | Ok l =>
      D3Line2D.has_line l = true
      /\ D3Line2D.has_points l = false
      /\ D3Line2D.lineid l = "ab11"
      /\ match D3Line2D.html (E := demo) l with
         | Ok text =>
             occurs "var data_ab11 = [[0.0, 0.0], [0.5, 0.5], [1.0, 1.0]]" text = true
             /\ attr_names text = ["d"; "class"]
         | Err _ => False
         end
  | Err _ => False
  end.
Proof. vm_compute. repeat split. Qed.

(** A line with style ['none'] and marker ['o'] has points and no stroke. *)
Example dots_only_scenario :
  D3Line2D.has_line
    (D3Line2D.mk (child_base sample_axes_base) (sample_line (Some "none") (Some "o")) "ab11")
  = false
  /\ D3Line2D.has_points
       (D3Line2D.mk (child_base sample_axes_base) (sample_line (Some "none") (Some "o")) "ab11")
     = true.
Proof. split; reflexivity. Qed.

(** An axes without any gridline object: the style sheet and the page of
    the figure raise IndexError; with one gridline they are produced. *)
Example no_gridlines_scenario :
  match D3Figure.__init__ sample_uuid
          (sample_figure [sample_axes [] false false [] [] (0, 1)%float]) [] with
  | Ok (f, _) =>
      D3Figure.style (E := demo) f = Err IndexError
      /\ D3Figure.html (E := demo) f = Err IndexError
  | Err _ => False
  end
  /\ match D3Figure.__init__ sample_uuid
             (sample_figure [sample_axes [] false false [gridline] [] (0, 1)%float])
             [] with
     | Ok (f, _) =>
         is_ok (D3Figure.style (E := demo) f) = true
         /\ is_ok (D3Figure.html (E := demo) f) = true
     | Err _ => False
     end.
Proof. vm_compute. repeat split. Qed.

(** ** Further properties of the module *)

(** *** Id lookup through the parents *)

(** X1: [figid] and [axid] return the attribute of the nearest node that
    has one, starting at the node itself and following the parents, and
    raise AttributeError exactly when no node of the chain has it. *)
Theorem id_lookup_nearest_ancestor (self : D3Base.t) :
  D3Base.figid self
  = match first_some (map D3Base._figid (ancestors self)) with
    | Some x => Ok x
    | None => Err AttributeError
    end
  /\ D3Base.axid self
     = match first_some (map D3Base._axid (ancestors self)) with
       | Some x => Ok x
       | None => Err AttributeError
       end.
Proof.
  revert self. fix IH 1. intros [p f a]. split.
  - destruct f as [x|]; [reflexivity|].
    destruct p as [q|]; [|reflexivity].
    cbn. apply (IH q).
  - destruct a as [x|]; [reflexivity|].
    destruct p as [q|]; [|reflexivity].
    cbn. apply (IH q).
Qed.

(** *** What the constructors need *)

(** X2: the constructor of an axes succeeds exactly when its parent
    resolves a figure id, and then the axes id is that id followed by the
    position, whatever axes id the parent may have; otherwise the
    exception of the lookup is raised. Likewise the constructor of a line
    needs a parent that resolves an axes id; the line id is that id
    followed by the position, or that id alone when no position is
    given. *)
Theorem constructors_need_parent_ids (parent : D3Base.t) (ax : Mpl.Axes.t)
    (line : Mpl.Line2D.t) (i n : nat) (w : list string) :
  match D3Base.figid parent with
  | Ok fid =>
      exists a,
        D3Axes.__init__ parent ax i w = Ok (a, (w ++ warnings_of ax)%list)
        /\ D3Axes.figid a = Ok fid
        /\ D3Axes.axid a = Ok (fid ++ str_nat i)
  | Err e => D3Axes.__init__ parent ax i w = Err e
  end
  /\ match D3Base.axid parent with
     | Ok aid =>
         exists l l0,
           D3Line2D.__init__ parent line (Some n) = Ok l
           /\ D3Line2D.lineid l = aid ++ str_nat n
           /\ D3Line2D.axid l = Ok aid
           /\ D3Line2D.__init__ parent line None = Ok l0
           /\ D3Line2D.lineid l0 = aid
     | Err e =>
         D3Line2D.__init__ parent line (Some n) = Err e
         /\ D3Line2D.__init__ parent line None = Err e
     end.
Proof.
  split.
  - destruct (D3Base.figid parent) as [fid|e] eqn:Hf.
    + eexists. split; [apply (D3Axes_init_eq parent fid ax i w Hf)|]. split; [|reflexivity].
      unfold D3Axes.figid, built_axes. cbn [D3Axes.base].
      now rewrite figid_axes_base.
    + apply (D3Axes_init_err parent e ax i w Hf).
  - unfold D3Line2D.__init__.
    change (D3Base._initialize (Some parent)) with (child_base parent).
    rewrite axid_child.
    destruct (D3Base.axid parent) as [aid|e] eqn:Ha; cbn [rbind].
    + rewrite !format_lineid, append_nil_r. cbn [rbind].
      do 2 eexists. split; [reflexivity|]. split; [reflexivity|].
      split; [|split; reflexivity].
      unfold D3Line2D.axid. cbn [D3Line2D.base]. now rewrite axid_child.
    + split; reflexivity.
Qed.

(** *** The built tree *)

Lemma built_axes_list_ax (p : D3Base.t) (fid : string) (axs : list Mpl.Axes.t) :
  forall i, map D3Axes.ax (built_axes_list p fid i axs) = axs.
Proof.
  induction axs as [|ax axs IH]; intros i; cbn; [reflexivity | now rewrite IH].
Qed.

(** X3: a built figure wraps the axes of the matplotlib figure one by one,
    in their order. Every axes has the figure as parent, every element has
    its axes as parent and refers to the matplotlib axes of its axes, and
    from every element the id lookups succeed: [figid] gives the id of the
    figure and [axid] the id of the element's axes. *)
Theorem built_tree_resolves_ids (uuid4 : string) (fig : Mpl.Figure.t)
    (w : list string) :
  exists f w',
    D3Figure.__init__ uuid4 fig w = Ok (f, w')
    /\ D3Figure.fig f = fig
    /\ map D3Axes.ax (D3Figure.axes f) = Mpl.Figure.axes fig
    /\ Forall
         (fun a =>
            D3Base.parent (D3Axes.base a) = Some (D3Figure.base f)
            /\ D3Axes.figid a = D3Figure.figid f
            /\ is_ok (D3Axes.axid a) = true
            /\ Forall
                 (fun e =>
                    D3Base.parent (elem_base e) = Some (D3Axes.base a)
                    /\ D3Base.figid (elem_base e) = D3Figure.figid f
                    /\ D3Base.axid (elem_base e) = D3Axes.axid a)
                 (D3Axes.elems a)
            /\ Forall (fun g => D3Grid.ax g = D3Axes.ax a) (D3Axes.grids a)
            /\ Forall (fun x => D3Text.ax x = D3Axes.ax a) (D3Axes.texts a))
         (D3Figure.axes f).
Proof.
  eexists; eexists. split; [apply D3Figure_init_eq|].
  split; [reflexivity|].
  cbn [built_figure D3Figure.axes]. split; [apply built_axes_list_ax|].
  apply built_axes_list_Forall. intros i ax _.
  split; [reflexivity|]. split; [reflexivity|]. split; [reflexivity|].
  split; [|split].
  - eapply Forall_impl; [|apply built_elems_base].
    intros e He. rewrite He. repeat split.
  - repeat constructor.
  - cbn [built_axes D3Axes.texts D3Axes.ax].
    apply Forall_map, Forall_forall. reflexivity.
Qed.

(** *** Warnings *)

Lemma kind_warning_length (kind : string) (l : list Mpl.Artist) :
  List.length (kind_warning kind l) <= 1.
Proof. destruct l; cbn; lia. Qed.

Lemma warnings_of_length (ax : Mpl.Axes.t) : List.length (warnings_of ax) <= 7.
Proof.
  unfold warnings_of. rewrite !length_app.
  pose proof (kind_warning_length "images" (Mpl.Axes.images ax)).
  pose proof (kind_warning_length "collections" (Mpl.Axes.collections ax)).
  pose proof (kind_warning_length "containers" (Mpl.Axes.containers ax)).
  pose proof (kind_warning_length "artists" (Mpl.Axes.artists ax)).
  pose proof (kind_warning_length "patches" (Mpl.Axes.patches ax)).
  pose proof (kind_warning_length "tables" (Mpl.Axes.tables ax)).
  assert (List.length (legend_warning (Mpl.Axes.legend_ ax)) <= 1)
    by (destruct (Mpl.Axes.legend_ ax); cbn; lia).
  lia.
Qed.

Lemma warnings_of_nil (ax : Mpl.Axes.t) :
  warnings_of ax = [] <-> no_unsupported ax = true.
Proof.
  unfold warnings_of, no_unsupported.
  destruct (Mpl.Axes.images ax), (Mpl.Axes.collections ax),
    (Mpl.Axes.containers ax), (Mpl.Axes.artists ax), (Mpl.Axes.patches ax),
    (Mpl.Axes.tables ax), (Mpl.Axes.legend_ ax); cbn;
    split; intros H; try reflexivity; discriminate.
Qed.

Lemma flat_map_warnings_length (axs : list Mpl.Axes.t) :
  List.length (flat_map warnings_of axs) <= 7 * List.length axs.
Proof.
  induction axs as [|ax axs IH]; cbn [flat_map List.length]; [lia|].
  rewrite length_app. pose proof (warnings_of_length ax). lia.
Qed.

Lemma flat_map_warnings_nil (axs : list Mpl.Axes.t) :
  flat_map warnings_of axs = [] <-> forallb no_unsupported axs = true.
Proof.
  induction axs as [|ax axs IH]; cbn [flat_map forallb]; [tauto|].
  rewrite Bool.andb_true_iff, <- IH, <- warnings_of_nil. split.
  - intros H. now apply app_eq_nil in H.
  - intros [-> ->]. reflexivity.
Qed.

(** X4: building a figure keeps the warnings issued before and appends at
    most seven per axes; it appends none exactly when no axes has images,
    collections, containers, artists, patches, tables or a legend. *)
Theorem warnings_only_for_unsupported_content (uuid4 : string)
    (fig : Mpl.Figure.t) (w : list string) :
  exists f issued,
    D3Figure.__init__ uuid4 fig w = Ok (f, (w ++ issued)%list)
    /\ List.length issued <= 7 * List.length (Mpl.Figure.axes fig)
    /\ (issued = [] <-> forallb no_unsupported (Mpl.Figure.axes fig) = true).
Proof.
  eexists; eexists. split; [apply D3Figure_init_eq|].
  split; [apply flat_map_warnings_length | apply flat_map_warnings_nil].
Qed.

(** *** Line ids *)

Lemma built_lines_lineid_In (self : D3Base.t) (aid : string)
    (ls : list Mpl.Line2D.t) :
  forall j x,
    In x (map D3Line2D.lineid (built_lines self aid j ls)) ->
    exists k, j < k /\ x = aid ++ str_nat k.
Proof.
  induction ls as [|l ls IH]; intros j x H; [contradiction|].
  cbn in H. destruct H as [H|H].
  - exists (j + 1). split; [lia | now rewrite <- H].
  - apply IH in H. destruct H as [k [Hk ->]]. exists k. split; [lia | reflexivity].
Qed.

Lemma built_lines_lineid_NoDup (self : D3Base.t) (aid : string)
    (ls : list Mpl.Line2D.t) :
  forall j, NoDup (map D3Line2D.lineid (built_lines self aid j ls)).
Proof.
  induction ls as [|l ls IH]; intros j; cbn; constructor; [|apply IH].
  intros H. apply built_lines_lineid_In in H. destruct H as [k [Hk H]].
  apply append_inv_head, str_nat_inj in H. lia.
Qed.

(** X5: within one axes of a built figure no two lines have the same id. *)
Theorem line_ids_distinct_within_axes (uuid4 : string) (fig : Mpl.Figure.t)
    (w : list string) :
  exists f w',
    D3Figure.__init__ uuid4 fig w = Ok (f, w')
    /\ Forall (fun a => NoDup (map D3Line2D.lineid (D3Axes.lines a)))
         (D3Figure.axes f).
Proof.
  eexists; eexists. split; [apply D3Figure_init_eq|].
  cbn [built_figure D3Figure.axes].
  apply built_axes_list_Forall. intros i ax _.
  apply built_lines_lineid_NoDup.
Qed.

(** X6: across the axes of a built figure two lines have the same id
    exactly when the decimal position of the axes followed by that of the
    line reads the same for both; so line 11 of the first axes and line 1
    of the eleventh axes share their id. *)
Theorem line_ids_collide_across_axes (uuid4 : string) (fig : Mpl.Figure.t)
    (w : list string) :
  exists f w',
    D3Figure.__init__ uuid4 fig w = Ok (f, w')
    /\ (forall k k' j j' a a' l l',
          nth_error (D3Figure.axes f) k = Some a ->
          nth_error (D3Figure.axes f) k' = Some a' ->
          nth_error (D3Axes.lines a) j = Some l ->
          nth_error (D3Axes.lines a') j' = Some l' ->
          (D3Line2D.lineid l = D3Line2D.lineid l'
           <-> str_nat (k + 1) ++ str_nat (j + 1)
               = str_nat (k' + 1) ++ str_nat (j' + 1)))
    /\ (forall a a' l l',
          nth_error (D3Figure.axes f) 0 = Some a ->
          nth_error (D3Figure.axes f) 10 = Some a' ->
          nth_error (D3Axes.lines a) 10 = Some l ->
          nth_error (D3Axes.lines a') 0 = Some l' ->
          D3Line2D.lineid l = D3Line2D.lineid l').
Proof.
  eexists; eexists. split; [apply D3Figure_init_eq|].
  cbn [built_figure D3Figure.axes].
  assert (Hgen : forall k k' j j' a a' l l',
             nth_error (built_axes_list (fig_base (D3Figure.generate_figid uuid4))
                          (D3Figure.generate_figid uuid4) 0 (Mpl.Figure.axes fig)) k
             = Some a ->
             nth_error (built_axes_list (fig_base (D3Figure.generate_figid uuid4))
                          (D3Figure.generate_figid uuid4) 0 (Mpl.Figure.axes fig)) k'
             = Some a' ->
             nth_error (D3Axes.lines a) j = Some l ->
             nth_error (D3Axes.lines a') j' = Some l' ->
             (D3Line2D.lineid l = D3Line2D.lineid l'
              <-> str_nat (k + 1) ++ str_nat (j + 1)
                  = str_nat (k' + 1) ++ str_nat (j' + 1))).
  { intros k k' j j' a a' l l' Ha Ha' Hl Hl'.
    apply built_axes_list_nth in Ha, Ha'.
    destruct Ha as [ax [_ ->]]. destruct Ha' as [ax' [_ ->]].
    cbn [built_axes D3Axes.lines] in Hl, Hl'.
    apply built_lines_nth in Hl, Hl'.
    destruct Hl as [_ ->]. destruct Hl' as [_ ->]. cbn [Nat.add].
    rewrite !append_assoc. split.
    - apply append_inv_head.
    - now intros ->. }
  split; [exact Hgen|].
  intros a a' l l' Ha Ha' Hl Hl'.
  now apply (Hgen 0 10 10 0 a a' l l' Ha Ha' Hl Hl').
Qed.

(** The two lines of X6 on a figure of eleven axes. *)
Example line_id_collision_scenario :
  match D3Figure.__init__ "ab" sample_wide_figure [] with
  | Ok (f, _) =>
      match nth_error (D3Figure.axes f) 0, nth_error (D3Figure.axes f) 10 with
      | Some a, Some a' =>
          option_map D3Line2D.lineid (nth_error (D3Axes.lines a) 10) = Some "ab111"
          /\ option_map D3Line2D.lineid (nth_error (D3Axes.lines a') 0) = Some "ab111"
      | _, _ => False
      end
  | Err _ => False
  end.
Proof. vm_compute. split; reflexivity. Qed.

Section PagesAndStyleSheets.

Context {E : Externals}.

(** *** The page of a figure *)

Lemma forallb_has_gridlines_false (axs : list Mpl.Axes.t) :
  forallb has_gridlines axs = false ->
  Exists (fun ax => gridlines_of ax = []) axs.
Proof.
  induction axs as [|ax axs IH]; cbn [forallb]; [discriminate|].
  intros H. apply Bool.andb_false_iff in H. destruct H as [H|H].
  - left. unfold has_gridlines in H. now destruct (gridlines_of ax).
  - right. now apply IH.
Qed.

Lemma forallb_has_gridlines_true (axs : list Mpl.Axes.t) :
  forallb has_gridlines axs = true ->
  forall ax, In ax axs -> exists g0 rest, gridlines_of ax = g0 :: rest.
Proof.
  intros H ax Hax. rewrite forallb_forall in H. specialize (H ax Hax).
  unfold has_gridlines in H. destruct (gridlines_of ax) as [|g0 rest]; [discriminate|].
  now exists g0, rest.
Qed.

(** X7: in a built figure the html of every axes succeeds, gridlines or
    not. If every axes has a gridline, the style of the figure is the style
    template around the styles of the axes joined by line breaks, and the
    page is the d3 import, that style, and the figure template around the
    html of the axes joined by line breaks. If some axes has no gridline,
    both raise IndexError. *)
Theorem figure_page_composition (uuid4 : string) (fig : Mpl.Figure.t)
    (w : list string) :
  exists f w' hs,
    D3Figure.__init__ uuid4 fig w = Ok (f, w')
    /\ Forall2 (fun a h => D3Axes.html a = Ok h) (D3Figure.axes f) hs
    /\ if forallb has_gridlines (Mpl.Figure.axes fig) then
         exists ss,
           Forall2 (fun a s => D3Axes.style a = Ok s) (D3Figure.axes f) ss
           /\ D3Figure.style f = Ok (D3Figure.STYLE_text (join nl ss))
           /\ D3Figure.html f
              = Ok (D3Figure.D3_IMPORT
                    ++ D3Figure.STYLE_text (join nl ss)
                    ++ D3Figure.FIGURE_TEMPLATE_text
                         (D3Figure.generate_figid uuid4)
                         (repr_float (Mpl.Figure.get_figwidth fig))
                         (repr_float (Mpl.Figure.dpi fig))
                         (repr_float (Mpl.Figure.get_figheight fig))
                         (join nl hs))
       else
         D3Figure.style f = Err IndexError
         /\ D3Figure.html f = Err IndexError.
Proof.
  destruct (built_figure_html_axes uuid4 fig) as [hs Hhs].
  exists (built_figure uuid4 fig). eexists. exists hs.
  split; [apply D3Figure_init_eq|].
  split; [now apply mapM_Forall2|].
  set (fid := D3Figure.generate_figid uuid4).
  assert (Hf : D3Base.figid (fig_base fid) = Ok fid) by reflexivity.
  assert (Hhtml : forall r,
             D3Figure.style (built_figure uuid4 fig) = r ->
             D3Figure.html (built_figure uuid4 fig)
             = (s <- r ;;
                Ok (D3Figure.D3_IMPORT ++ s
                    ++ D3Figure.FIGURE_TEMPLATE_text fid
                         (repr_float (Mpl.Figure.get_figwidth fig))
                         (repr_float (Mpl.Figure.dpi fig))
                         (repr_float (Mpl.Figure.get_figheight fig))
                         (join nl hs)))%py).
  { intros r <-. unfold D3Figure.html. rewrite Hhs. cbn [rbind].
    change (D3Figure.figid (built_figure uuid4 fig)) with (Ok (A := string) fid).
    cbn [rbind]. cbn [built_figure D3Figure.fig]. rewrite format_FIGURE.
    reflexivity. }
  destruct (forallb has_gridlines (Mpl.Figure.axes fig)) eqn:Hg.
  - destruct (mapM_total D3Axes.style (D3Figure.axes (built_figure uuid4 fig)))
      as [ss Hss].
    { cbn [built_figure D3Figure.axes]. fold fid.
      apply built_axes_list_Forall. intros i ax Hax.
      destruct (forallb_has_gridlines_true _ Hg ax Hax) as [g0 [rest Hgl]].
      exact (built_axes_style_first (fig_base fid) fid i ax g0 rest Hf Hgl). }
    assert (Hs : D3Figure.style (built_figure uuid4 fig)
                 = Ok (D3Figure.STYLE_text (join nl ss))).
    { unfold D3Figure.style. rewrite Hss. cbn [rbind]. apply format_figure_STYLE. }
    exists ss. split; [now apply mapM_Forall2|]. split; [exact Hs|].
    now rewrite (Hhtml _ Hs).
  - assert (Hs : D3Figure.style (built_figure uuid4 fig) = Err IndexError).
    { unfold D3Figure.style. cbn [built_figure D3Figure.axes]. fold fid.
      rewrite (mapM_raises D3Axes.style IndexError); [reflexivity| |].
      - apply built_axes_list_Forall. intros i ax _.
        destruct (gridlines_of ax) as [|g0 rest] eqn:Hgl.
        + right. now apply built_axes_style_empty.
        + left. destruct (built_axes_style_first (fig_base fid) fid i ax g0 rest Hf Hgl)
            as [s Hs]. now rewrite Hs.
      - apply (built_axes_list_Exists (fun ax => gridlines_of ax = []));
          [|now apply forallb_has_gridlines_false].
        intros i ax Hgl. now apply built_axes_style_empty. }
    split; [exact Hs|]. now rewrite (Hhtml _ Hs).
Qed.

(** *** The style sheet of an axes *)

Lemma texts_style_eq (xs : list D3Text.t) :
  mapM D3Text.style xs = Ok (repeat EmptyString (List.length xs)).
Proof.
  induction xs as [|x xs IH]; cbn; [reflexivity|]. now rewrite IH.
Qed.

Lemma fontsize_eq (ticks : list Mpl.Text.t) :
  (if Nat.eqb (List.length ticks) 0 then Ok "11"
   else (t0 <- getitem ticks 0 ;; Ok (repr_float (Mpl.Text.get_size t0)))%py)
  = Ok match ticks with
       | [] => "11"
       | t0 :: _ => repr_float (Mpl.Text.get_size t0)
       end.
Proof. destruct ticks; reflexivity. Qed.

(** X8: in a built figure the style of an axes with a gridline is, joined
    by line breaks: the rule of the axes, the rule of its grid, the rules
    of its lines in order, and one empty string per text. The font size of
    the axes rule is 11 when the axes has no tick label, and otherwise the
    size of the first tick label, those of the x axis coming first. *)
Theorem axes_style_composition (uuid4 : string) (fig : Mpl.Figure.t)
    (w : list string) :
  exists f w',
    D3Figure.__init__ uuid4 fig w = Ok (f, w')
    /\ Forall2
         (fun ax a =>
            has_gridlines ax = true ->
            exists id g gs ls,
              D3Axes.axid a = Ok id
              /\ D3Axes.grids a = [g]
              /\ D3Grid.style g = Ok gs
              /\ Forall2 (fun l s => D3Line2D.style l = Ok s) (D3Axes.lines a) ls
              /\ D3Axes.style a
                 = Ok (join nl
                         (D3Axes.STYLE_text (D3Figure.generate_figid uuid4) id
                            match (Mpl.Axis.get_ticklabels (Mpl.Axes.xaxis ax)
                                   ++ Mpl.Axis.get_ticklabels (Mpl.Axes.yaxis ax))%list with
                            | [] => "11"
                            | t0 :: _ => repr_float (Mpl.Text.get_size t0)
                            end
                          :: gs
                          :: ls ++ repeat EmptyString (List.length (Mpl.Axes.texts ax) + 3))%list))
         (Mpl.Figure.axes fig) (D3Figure.axes f).
Proof.
  eexists; eexists. split; [apply D3Figure_init_eq|].
  cbn [built_figure D3Figure.axes].
  set (fid := D3Figure.generate_figid uuid4).
  assert (Hf : D3Base.figid (fig_base fid) = Ok fid) by reflexivity.
  apply built_axes_list_Forall2. intros i ax Hg.
  unfold has_gridlines in Hg.
  destruct (gridlines_of ax) as [|g0 rest] eqn:Hgl; [discriminate|].
  destruct (built_lines_style_total (axes_base (fig_base fid) (fid ++ str_nat i))
              (fid ++ str_nat i) fid (Mpl.Axes.lines ax) Hf 0) as [ls Hls].
  do 4 eexists. split; [reflexivity|]. split; [reflexivity|].
  split; [apply (D3Grid_style_first _ fid g0 rest); [exact Hf | exact Hgl]|].
  split; [apply mapM_Forall2; exact Hls|].
  unfold D3Axes.style.
  cbn [built_axes D3Axes.ax D3Axes.grids D3Axes.lines D3Axes.texts].
  rewrite fontsize_eq. cbn [rbind].
  unfold D3Axes.axid, D3Axes.figid.
  change (D3Axes.base (built_axes (fig_base fid) fid i ax))
    with (axes_base (fig_base fid) (fid ++ str_nat i)).
  rewrite axid_axes_base, figid_axes_base, Hf. cbn [rbind].
  rewrite format_axes_STYLE. cbn [rbind mapM].
  rewrite (D3Grid_style_first _ fid g0 rest); [|exact Hf|exact Hgl].
  cbn [rbind]. rewrite Hls. cbn [rbind].
  rewrite texts_style_eq. cbn [rbind].
  rewrite length_map. unfold source_texts. rewrite length_app. reflexivity.
Qed.

(** *** Texts *)

(** X9: the html of a text never raises and does not depend on the parent;
    it is the empty string exactly when the content of the text is
    empty. *)
Theorem text_html_empty_iff (x : D3Text.t) :
  exists s,
    D3Text.html x = Ok s
    /\ (s = EmptyString <-> Mpl.Text.get_text (D3Text.text x) = EmptyString)
    /\ forall b, D3Text.html (D3Text.mk b (D3Text.ax x) (D3Text.text x)) = Ok s.
Proof.
  unfold D3Text.html. cbn [D3Text.text D3Text.ax].
  destruct (String.eqb_spec (Mpl.Text.get_text (D3Text.text x)) EmptyString) as [He|He].
  - exists EmptyString. repeat split; auto.
  - destruct (get_text_coordinates (D3Text.text x)) as [cx cy].
    rewrite format_TEXT. eexists. split; [reflexivity|]. split; [|reflexivity].
    split; [discriminate | contradiction].
Qed.

End PagesAndStyleSheets.

Section DrawAndUpdate.

Context {E : Externals}.

(** *** Reading an id that the needle contains *)

Lemma drop_prefix_same (id n s : string) :
  drop_prefix (id ++ n) (id ++ s) = drop_prefix n s.
Proof.
  induction id as [|c id IH]; [reflexivity|].
  cbn [append drop_prefix]. now rewrite Ascii.eqb_refl.
Qed.

Ltac read_text :=
  repeat first
    [ rewrite attr_names_skip_id by assumption
    | rewrite occurs_skip_id by first [assumption | reflexivity]
    | rewrite drop_prefix_same
    | progress cbn ].

(** *** The update of a grid against its initial draw *)


(** *** The update of a line against its initial draw *)

Lemma occurs_app_r (n p s : string) :
  occurs n s = true -> occurs n (p ++ s) = true.
Proof.
  intros H. induction p as [|c p IH]; [exact H|].
  cbn [append occurs]. rewrite IH. now destruct (drop_prefix n (String c (p ++ s))).
Qed.




(** *** The characters of the ids *)

(** X12: for a figure built from a uuid string, the figure id, every axes
    id and every line id consist of decimal digits and the letters a to f
    only, so that the names and selectors built from them are single
    tokens. *)
Theorem built_ids_are_id_strings (uuid4 : string) (fig : Mpl.Figure.t)
    (w : list string) :
  uuid_chars uuid4 = true ->
  exists f w' fid,
    D3Figure.__init__ uuid4 fig w = Ok (f, w')
    /\ D3Figure.figid f = Ok fid
    /\ idstring fid = true
    /\ Forall
         (fun a =>
            (exists id, D3Axes.axid a = Ok id /\ idstring id = true)
            /\ Forall (fun l => idstring (D3Line2D.lineid l) = true)
                 (D3Axes.lines a))
         (D3Figure.axes f).
Proof.
  intros Hu. do 3 eexists. split; [apply D3Figure_init_eq|].
  split; [reflexivity|]. split; [now apply idstring_generate_figid|].
  cbn [built_figure D3Figure.axes].
  apply built_axes_list_Forall. intros i ax _.
  assert (Hid : idstring (D3Figure.generate_figid uuid4 ++ str_nat i) = true).
  { now rewrite idstring_app, idstring_generate_figid, idstring_str_nat. }
  split; [eexists; split; [reflexivity | exact Hid]|].
  cbn [built_axes D3Axes.lines].
  apply Forall_forall. intros l Hl. apply In_nth_error in Hl.
  destruct Hl as [k Hk]. apply built_lines_nth in Hk. destruct Hk as [_ ->].
  now rewrite idstring_app, Hid, idstring_str_nat.
Qed.

(** *** The style of a line against its initial draw *)

Ltac find_text :=
  repeat first
    [ solve [read_text; reflexivity]
    | apply occurs_app_r ].

(** X13: the style of a line succeeds whenever the figure id resolves,
    whether or not the line has a stroke or points, and holds two rules,
    both inside [div#figure<figid>]: one for [path.line<id>] and one for
    [path.points<id>], the classes the initial draw assigns. A line
    without opacity gets the opacity 1. *)
Theorem line_style_rules (l : D3Line2D.t) (f : string) :
  D3Line2D.figid l = Ok f ->
  idstring f = true ->
  idstring (D3Line2D.lineid l) = true ->
  exists s,
    D3Line2D.style l = Ok s
    /\ occurs ("#figure" ++ f ++ nl ++ "    path.line" ++ D3Line2D.lineid l ++ " {") s
       = true
    /\ occurs ("#figure" ++ f ++ nl ++ "    path.points" ++ D3Line2D.lineid l ++ " {") s
       = true
    /\ (Mpl.Line2D.get_alpha (D3Line2D.line l) = None ->
        occurs ("fill-opacity: 1;") s = true).
Proof.
  intros Hf Hid Hlid. unfold D3Line2D.style. rewrite Hf. cbn [rbind].
  rewrite format_line_STYLE. eexists. split; [reflexivity|].
  set (lineid := D3Line2D.lineid l) in *.
  unfold D3Line2D.STYLE_text.
  repeat split.
  - read_text. reflexivity.
  - find_text.
  - intros ->. find_text.
Qed.

End DrawAndUpdate.

(** *** The further statements on sample inputs *)



Lemma line_style_rules_witness :
  D3Line2D.figid sample_d3line = Ok "ab"
  /\ idstring "ab" = true
  /\ idstring (D3Line2D.lineid sample_d3line) = true
  /\ exists s,
       D3Line2D.style (E := demo) sample_d3line = Ok s
       /\ occurs ("#figure" ++ "ab" ++ nl ++ "    path.line" ++ "ab11" ++ " {") s = true
       /\ occurs ("#figure" ++ "ab" ++ nl ++ "    path.points" ++ "ab11" ++ " {") s = true
       /\ (Mpl.Line2D.get_alpha (D3Line2D.line sample_d3line) = None ->
           occurs ("fill-opacity: 1;") s = true).
Proof.
  split; [reflexivity|]. split; [reflexivity|]. split; [reflexivity|].
  exact (@line_style_rules demo sample_d3line "ab" eq_refl eq_refl eq_refl).
Defined.

Lemma built_ids_are_id_strings_witness :
  uuid_chars sample_uuid = true
  /\ exists f w' fid,
       D3Figure.__init__ sample_uuid sample_wide_figure [] = Ok (f, w')
       /\ D3Figure.figid f = Ok fid
       /\ idstring fid = true
       /\ Forall
            (fun a =>
               (exists id, D3Axes.axid a = Ok id /\ idstring id = true)
               /\ Forall (fun l => idstring (D3Line2D.lineid l) = true)
                    (D3Axes.lines a))
            (D3Figure.axes f).
Proof.
  split; [reflexivity|].
  exact (built_ids_are_id_strings sample_uuid sample_wide_figure [] eq_refl).
Defined.

(** *** Two lines behind one id *)

(** C7 fails on a figure of eleven axes whose first axes has eleven lines:
    line 11 of axes 1 and line 1 of axes 11 get the same id. Each initial
    draw declares the data variable and the path generator under that id,
    the first with the points of the one line and the scales of axes 1,
    the second with the points of the other line and the scales of axes
    11. In the page both pairs of declarations stand in the one function of
    the figure, those of axes 11 last; the update of line 11 of axes 1,
    which is part of the handler of axes 1, redraws its path from the
    variable and the generator of that name. *)
Lemma colliding_lines_share_data_variable :
  match D3Figure.__init__ sample_uuid collision_figure [] with
  | Ok (f, _) =>
      match nth_error (D3Figure.axes f) 0, nth_error (D3Figure.axes f) 10 with
      | Some a, Some a' =>
          match nth_error (D3Axes.lines a) 10, nth_error (D3Axes.lines a') 0 with
          | Some l, Some l' =>
              D3Axes.axid a = Ok (sample_figid ++ "1")
              /\ D3Axes.axid a' = Ok (sample_figid ++ "11")
              /\ Mpl.Line2D.get_xydata (D3Line2D.line l)
                 = [(0, 0); (0.5, 0.5); (1, 1)]%float
              /\ Mpl.Line2D.get_xydata (D3Line2D.line l') = [(1, 0); (0, 1)]%float
              /\ D3Line2D.lineid l = sample_figid ++ "111"
              /\ D3Line2D.lineid l' = sample_figid ++ "111"
              /\ D3Line2D.html (E := demo) l
                 = Ok (D3Line2D.DATA_TEMPLATE_text (sample_figid ++ "111")
                         "[[0.0, 0.0], [0.5, 0.5], [1.0, 1.0]]"
                       ++ D3Line2D.LINE_TEMPLATE_text (sample_figid ++ "111")
                            (sample_figid ++ "1"))
              /\ D3Line2D.html (E := demo) l'
                 = Ok (D3Line2D.DATA_TEMPLATE_text (sample_figid ++ "111")
                         "[[1.0, 0.0], [0.0, 1.0]]"
                       ++ D3Line2D.LINE_TEMPLATE_text (sample_figid ++ "111")
                            (sample_figid ++ "11"))
              /\ D3Line2D.zoom l
                 = Ok (D3Line2D.LINE_ZOOM_text (sample_figid ++ "1")
                         (sample_figid ++ "111"))
              /\ match D3Axes.html (E := demo) a, D3Figure.html (E := demo) f with
                 | Ok h, Ok page =>
                     occurs (D3Axes.zoomed_open_text (sample_figid ++ "1")) h = true
                     /\ occurs (D3Line2D.LINE_ZOOM_text (sample_figid ++ "1")
                                  (sample_figid ++ "111")) h = true
                     /\ count_occurs ("func" ++ sample_figid ++ " = function(figure){") page = 1
                     /\ count_occurs ("var data_" ++ sample_figid ++ "111 = ") page = 2
                     /\ count_occurs ("var line_" ++ sample_figid ++ "111 = ") page = 2
                     /\ match
                          index_of ("var data_" ++ sample_figid
                                    ++ "111 = [[0.0, 0.0], [0.5, 0.5], [1.0, 1.0]]") page,
                          index_of ("var data_" ++ sample_figid
                                    ++ "111 = [[1.0, 0.0], [0.0, 1.0]]") page
                        with
                        | Some n, Some n' => Nat.ltb n n' = true
                        | _, _ => False
                        end
                 | _, _ => False
                 end
          | _, _ => False
          end
      | _, _ => False
      end
  | Err _ => False
  end.
Proof. vm_compute. repeat split. Qed.
